(** * Rettiwt-API: the fetcher service and its extraction pipeline

    A shallow embedding of [src/services/FetcherService.ts] (class
    [FetcherService]) and of the [TweetService.getTweetById] method that
    follows it in the same source file, with the properties of the
    natural-language specification stated and proved over the embedding.

    Layout:
    - JavaScript values as [JSON.parse] produces them, the completions of
      an expression (a value or a throw) and promises;
    - the helpers and declarations the services import, which are not
      among the sources: the tree walk, the enumerations, the response
      types;
    - [FetcherService]: the two error middlewares and [extractData] as
      functions into completions, [request], [fetch] and [post] as
      interaction trees over the one network event;
    - [TweetService]: [getTweetById] as an interaction tree over the cache
      and network operations of its base class;
    - the selection rules in the words of the specification, and sample
      inputs;
    - lemmas and theorems: the walk, [extractData], the request pipeline,
      [getTweetById]. An effectful method is run against an arbitrary
      environment, a handler of its events into a state monad over the
      state of the world. *)

From Stdlib Require Import String Ascii List ZArith Bool Lia.
From Stdlib Require Import DecimalString DecimalZ DecimalPos FinFun.
From ITree Require Import ITree ITreeFacts Events.State Events.StateFacts Props.Leaf.
Import ListNotations.

Local Open Scope string_scope.
Local Open Scope list_scope.

(* ===================================================================== *)
(** * JavaScript values *)
(* ===================================================================== *)

(** A value produced by [JSON.parse]. An object keeps its entries in the
    order [Object.entries] enumerates them; a parsed object binds each key
    once. Numeric leaves are carried as integers: no modelled function
    computes with them. The induction principle that reaches through the
    lists is [json_nested_ind] below. *)
Unset Elimination Schemes.
Inductive json : Type :=
| JNull
| JBool (b : bool)
| JNum (n : Z)
| JStr (s : string)
| JArr (items : list json)
| JObj (fields : list (string * json)).
Set Elimination Schemes.

(** The result of reading a property or an array slot: a value, or
    [undefined]. *)
Definition jsval : Type := option json.
Abbreviation undefined := (@None json).

(** What a [throw] carries: the [TypeError] the runtime raises when a
    property of [undefined] or [null] is read, or an [Error] built with
    [new Error(message)] (errors of the collaborators, such as axios, are
    [Error]s too). *)
Inductive exn : Type :=
| TypeError
| Error (message : string).

(** The completion of an expression: it throws ([inl]) or returns ([inr]). *)
Definition completion (A : Type) : Type := (exn + A)%type.

Definition throw {A} (e : exn) : completion A := inl e.
Definition ret {A} (a : A) : completion A := inr a.

Definition bind {A B} (c : completion A) (k : A -> completion B) : completion B :=
  match c with
  | inl e => inl e
  | inr a => k a
  end.

Declare Scope completion_scope.
Delimit Scope completion_scope with completion.
Notation "'let!' x ':=' c 'in' k" := (bind c (fun x => k))
  (at level 10, x name, c at level 100, k at level 200) : completion_scope.
Local Open Scope completion_scope.

(** [Array.prototype.map] with a callback that may throw: the first throw
    aborts the whole map. *)
Fixpoint mapM {A B} (f : A -> completion B) (l : list A) : completion (list B) :=
  match l with
  | [] => ret []
  | a :: l' => let! b := f a in let! bs := mapM f l' in ret (b :: bs)
  end.

(** [obj[key]] on the entries of an object: the first binding of [key]. *)
Fixpoint field (key : string) (fields : list (string * json)) : jsval :=
  match fields with
  | [] => undefined
  | (k, v) :: rest => if String.eqb k key then Some v else field key rest
  end.

(** [v.key] for the property names the services read ([tweet_results],
    [user_results], [result], [value]): none of them is defined on the
    prototypes of strings, numbers, booleans or arrays, so only an object
    can answer with a value; reading from [undefined] or [null] throws. *)
Definition getProp (v : jsval) (key : string) : completion jsval :=
  match v with
  | None => throw TypeError
  | Some JNull => throw TypeError
  | Some (JObj fields) => ret (field key fields)
  | Some _ => ret undefined
  end.

(** [v?.key]: optional chaining answers [undefined] where [v.key] would
    throw. *)
Definition getPropOpt (v : jsval) (key : string) : jsval :=
  match v with
  | Some (JObj fields) => field key fields
  | _ => undefined
  end.

(** ** Induction over nested values *)

Section json_induction.
Variable P : json -> Prop.
Hypothesis Hnull : P JNull.
Hypothesis Hbool : forall b, P (JBool b).
Hypothesis Hnum : forall n, P (JNum n).
Hypothesis Hstr : forall s, P (JStr s).
Hypothesis Harr : forall items, Forall P items -> P (JArr items).
Hypothesis Hobj : forall fields, Forall (fun kv => P (snd kv)) fields -> P (JObj fields).

Fixpoint json_nested_ind (j : json) : P j :=
  match j with
  | JNull => Hnull
  | JBool b => Hbool b
  | JNum n => Hnum n
  | JStr s => Hstr s
  | JArr items =>
      Harr items
        ((fix go (l : list json) : Forall P l :=
            match l with
            | [] => Forall_nil P
            | x :: l' => Forall_cons x (json_nested_ind x) (go l')
            end) items)
  | JObj fields =>
      Hobj fields
        ((fix go (l : list (string * json)) : Forall (fun kv => P (snd kv)) l :=
            match l with
            | [] => Forall_nil _
            | kv :: l' => Forall_cons kv (json_nested_ind (snd kv)) (go l')
            end) fields)
  end.
End json_induction.

(* ===================================================================== *)
(** * Imported helpers and declarations *)
(* ===================================================================== *)

(** [data[key] == value] on a node: only an object that has [key] bound to
    the string [value] matches. *)
Definition hasTag (key value : string) (node : json) : bool :=
  match node with
  | JObj fields =>
      match field key fields with
      | Some (JStr s) => String.eqb s value
      | _ => false
      end
  | _ => false
  end.

(** Modelled from the spec: [findByFilter] of [helper/JsonUtils] is not
    among the sources. The spec has it "walk" an "arbitrarily-shaped JSON
    tree" and "find nodes matching a type discriminator", "pick[ing]
    matching JSON subtrees by a string tag": the walk visits a node before
    its children and the children in order, and keeps every object whose
    [key] is bound to [value]. *)
Fixpoint findByFilter (data : json) (key value : string) : list json :=
  match data with
  | JArr items => flat_map (fun item => findByFilter item key value) items
  | JObj fields =>
      (if hasTag key value data then [data] else [])
        ++ flat_map (fun kv => findByFilter (snd kv) key value) fields
  | _ => []
  end.

(** Every node of a tree, each before its children (document order). *)
Fixpoint nodes (data : json) : list json :=
  data ::
    match data with
    | JArr items => flat_map nodes items
    | JObj fields => flat_map (fun kv => nodes (snd kv)) fields
    | _ => []
    end.

(** [child c p]: [c] is an element of the array [p] or the value of one of
    the entries of the object [p]. [subnode] is its reflexive and
    transitive closure. *)
Inductive child : json -> json -> Prop :=
| child_item items c : In c items -> child c (JArr items)
| child_field fields k c : In (k, c) fields -> child c (JObj fields).

Inductive subnode : json -> json -> Prop :=
| subnode_self j : subnode j j
| subnode_step n c p : subnode n c -> child c p -> subnode n p.

(** Modelled from the spec: the enumeration [EResourceType] is declared in
    the package rettiwt-core, not among the sources. The spec calls a
    resource type "a tag selecting which endpoint template and
    JSON-extraction rule to apply for a given call"; the sources name the
    twelve tags below, and [OTHER_RESOURCE] stands for any further member
    of the enumeration, told apart by its endpoint. *)
Inductive EResourceType : Type :=
| CREATE_TWEET
| LIST_TWEETS
| TWEET_DETAILS
| TWEET_SEARCH
| TWEET_FAVORITERS
| TWEET_RETWEETERS
| USER_DETAILS
| USER_DETAILS_BY_ID
| USER_FOLLOWERS
| USER_FOLLOWING
| USER_LIKES
| USER_TWEETS
| OTHER_RESOURCE (endpoint : string).

(** [a == b] on two resource types. *)
Definition EResourceType_eqb (a b : EResourceType) : bool :=
  match a, b with
  | CREATE_TWEET, CREATE_TWEET
  | LIST_TWEETS, LIST_TWEETS
  | TWEET_DETAILS, TWEET_DETAILS
  | TWEET_SEARCH, TWEET_SEARCH
  | TWEET_FAVORITERS, TWEET_FAVORITERS
  | TWEET_RETWEETERS, TWEET_RETWEETERS
  | USER_DETAILS, USER_DETAILS
  | USER_DETAILS_BY_ID, USER_DETAILS_BY_ID
  | USER_FOLLOWERS, USER_FOLLOWERS
  | USER_FOLLOWING, USER_FOLLOWING
  | USER_LIKES, USER_LIKES
  | USER_TWEETS, USER_TWEETS => true
  | OTHER_RESOURCE e1, OTHER_RESOURCE e2 => String.eqb e1 e2
  | _, _ => false
  end.

Declare Scope resource_scope.
Delimit Scope resource_scope with resource.
Notation "a == b" := (EResourceType_eqb a b) (at level 70, no associativity) : resource_scope.

(** Modelled from the spec: the class [CursoredData] of
    [models/CursoredData] is not among the sources. The spec calls it the
    "uniform cursored-list shape": the matching nodes "alongside a
    pagination cursor". The record keeps the two arguments the constructor
    is called with, the entity list and the cursor; what the class makes of
    them afterwards is not in the sources. *)
Record CursoredData : Type := new_CursoredData {
  entities : list jsval;
  cursor : jsval
}.

(** One element of the [errors] array of a response body: the sources read
    its numeric [code]. *)
Record IError : Type := { code : Z }.

(** The body of a response, [IResponse<unknown>]: the optional [errors]
    array the API middleware reads, and the same body as the untyped tree
    [extractData] walks (it receives the body as [NonNullable<unknown>]). *)
Record IResponse : Type := {
  errors : option (list IError);
  tree : json
}.

(** [AxiosResponse<IResponse<unknown>>]: what the sources read of it. *)
Record AxiosResponse : Type := {
  status : Z;
  data : IResponse
}.

(** The object an [enum] declaration compiles to, as its entries. *)
Definition enum_object (V : Type) : Type := list (string * V).

(** [table[key]] on an enumeration object. *)
Fixpoint enum_get {V} (key : string) (table : enum_object V) : option V :=
  match table with
  | [] => None
  | (k, v) :: rest => if String.eqb k key then Some v else enum_get key rest
  end.

(** The template literal [`${code}`] of an integer: its decimal digits. *)
Definition template_of_number (n : Z) : string :=
  NilZero.string_of_int (Z.to_int n).

(** Modelled from the spec: [findKeyByValue] of [helper/JsonUtils] is not
    among the sources; the spec only says that the pipeline "map[s]
    HTTP/platform error codes to messages". As its name and its call say,
    it answers the first key of the table whose value equals the given
    one, and [undefined] when there is none. The value sought is a string
    and the comparison is [==]: a numeric value of the table is held as its
    decimal digits. *)
Fixpoint findKeyByValue (table : enum_object string) (value : string) : option string :=
  match table with
  | [] => None
  | (k, v) :: rest => if String.eqb v value then Some k else findKeyByValue rest value
  end.

(** [String(k)] for a property key that may be [undefined]. *)
Definition property_key (k : option string) : string :=
  match k with
  | Some s => s
  | None => "undefined"
  end.

(** [key in table]. *)
Definition enum_in {V} (key : string) (table : enum_object V) : bool :=
  match enum_get key table with
  | Some _ => true
  | None => false
  end.

(** [new Error(message)]: an [undefined] message gives the empty one. *)
Definition new_Error (message : option string) : exn :=
  Error (match message with Some m => m | None => "" end).

(** An asynchronous computation over the events [E]: a tree that ends with
    the completion the promise settles to, fulfilled ([inr]) or rejected
    ([inl]). *)
Definition Promise (E : Type -> Type) (A : Type) : Type := itree E (completion A).

(** [p.then(f)]: [f] runs on the value of a fulfilled promise and may
    throw; a rejection passes through. *)
Definition then_ {E A B} (p : Promise E A) (f : A -> completion B) : Promise E B :=
  ITree.bind p (fun c => Ret (bind c f)).

(** [const a = await p; k a] inside an [async] function: a rejection of
    [p] rejects the function's promise. *)
Definition await {E A B} (p : Promise E A) (k : A -> Promise E B) : Promise E B :=
  ITree.bind p (fun c =>
    match c with
    | inl e => Ret (inl e)
    | inr a => k a
    end).

(* ===================================================================== *)
(** * FetcherService *)
(* ===================================================================== *)

Module FetcherService.

(** [new https.Agent()] or [new HttpsProxyAgent(proxyUrl)]. *)
Inductive Agent : Type :=
| HttpsAgent
| HttpsProxyAgent (proxyUrl : string).

(** [Request] of rettiwt-core: the fields [request] reads. *)
Record Request : Type := {
  url : string;
  type : string;
  payload : jsval
}.

(** [AxiosRequestConfig], as [request] fills it. *)
Record AxiosRequestConfig : Type := {
  config_url : string;
  config_method : string;
  config_data : jsval;
  config_headers : json;
  config_httpsAgent : Agent
}.

(** The one effect of the service: the call [axios(config)], whose promise
    is fulfilled with a response or rejected. *)
Variant netE : Type -> Type :=
| Axios (config : AxiosRequestConfig) : netE (completion AxiosResponse).

(** [getHttpsAgent]. *)
Definition getHttpsAgent (proxyUrl : option string) : Agent :=
  match proxyUrl with
  | Some u => HttpsProxyAgent u
  | None => HttpsAgent
  end.

(** [extractData]: the chain of comparisons on the resource type, then the
    cursor. [required] is evaluated before the cursor, and a throw of the
    projection leaves the method before a [CursoredData] is built. *)
Definition extractData (data : json) (type : EResourceType) : completion CursoredData :=
  let! required :=
    (if (type == TWEET_DETAILS)%resource then
       ret (List.map Some (findByFilter data "__typename" "Tweet"))
     else if ((type == USER_DETAILS) || (type == USER_DETAILS_BY_ID))%resource then
       ret (List.map Some (findByFilter data "__typename" "User"))
     else if ((type == TWEET_SEARCH) || (type == USER_LIKES)
              || (type == LIST_TWEETS) || (type == USER_TWEETS))%resource then
       mapM (fun item => let! tweet_results := getProp (Some item) "tweet_results" in
                         getProp tweet_results "result")
            (findByFilter data "__typename" "TimelineTweet")
     else if ((type == TWEET_FAVORITERS) || (type == TWEET_RETWEETERS)
              || (type == USER_FOLLOWERS) || (type == USER_FOLLOWING))%resource then
       mapM (fun item => let! user_results := getProp (Some item) "user_results" in
                         getProp user_results "result")
            (findByFilter data "__typename" "TimelineUser")
     else ret [])
  in
  ret (new_CursoredData required
         (getPropOpt (hd_error (findByFilter data "cursorType" "Bottom")) "value")).

Section Service.

(** The enumerations the middlewares consult: [EHttpStatus] and
    [EApiErrors] of this repository's [enums], [EErrorCodes] of
    rettiwt-core. None is among the sources; each is a parameter. *)
Variable EHttpStatus : enum_object string.
Variable EErrorCodes : enum_object string.
Variable EApiErrors : enum_object string.

(** [AuthCredential] of rettiwt-auth, with its [toHeader] read back
    through [JSON.parse(JSON.stringify(...))], and the arguments and the
    constructor of [Request]. *)
Variable AuthCredential : Type.
Variable toHeader : AuthCredential -> json.
Variable Args : Type.
Variable new_Request : EResourceType -> Args -> completion Request.

(** The fields of the service object. *)
Record FetcherService : Type := {
  cred : AuthCredential;
  httpsAgent : Agent
}.

(** [handleHttpError]. The status is a number: as a property key of the
    enumeration object it is its decimal digits. *)
Definition handleHttpError (res : AxiosResponse) : completion AxiosResponse :=
  if negb (status res =? 200)%Z && enum_in (template_of_number (status res)) EHttpStatus
  then throw (new_Error (enum_get (template_of_number (status res)) EHttpStatus))
  else ret res.

(** The message [handleApiError] builds from a code. *)
Definition apiErrorMessage (code : Z) : option string :=
  enum_get (property_key (findKeyByValue EErrorCodes (template_of_number code))) EApiErrors.

(** [handleApiError]. The test [res.data.errors && res.data.errors.length]
    holds when the array is there and is not empty; the code read is that
    of its first element. *)
Definition handleApiError (res : AxiosResponse) : completion AxiosResponse :=
  match errors (data res) with
  | Some (first :: _) => throw (new_Error (apiErrorMessage (code first)))
  | _ => ret res
  end.

(** The axios configuration [request] creates from the input one. *)
Definition axiosRequest (this : FetcherService) (config : Request) : AxiosRequestConfig :=
  {| config_url := url config;
     config_method := type config;
     config_data := payload config;
     config_headers := toHeader (cred this);
     config_httpsAgent := httpsAgent this |}.

(** [request]: the axios call, then the two middlewares, each in a
    [then]. *)
Definition request (this : FetcherService) (config : Request) : Promise netE AxiosResponse :=
  then_ (then_ (ITree.trigger (Axios (axiosRequest this config))) handleHttpError)
        handleApiError.

(** [fetch]. The body of the response goes to [extractData] with the
    resource type the request was built from. *)
Definition fetch (this : FetcherService) (resourceType : EResourceType) (args : Args)
  : Promise netE CursoredData :=
  await (Ret (new_Request resourceType args)) (fun request_ =>
  await (then_ (request this request_) (fun res => ret (data res))) (fun res =>
  Ret (extractData (tree res) resourceType))).

(** [post]. The response is awaited and dropped; the value is the
    literal [true]. *)
Definition post (this : FetcherService) (resourceType : EResourceType) (args : Args)
  : Promise netE bool :=
  await (Ret (new_Request resourceType args)) (fun request_ =>
  await (request this request_) (fun res =>
  Ret (ret true))).

End Service.

Arguments Build_FetcherService {AuthCredential} _ _.
Arguments cred {AuthCredential} _.
Arguments httpsAgent {AuthCredential} _.
Arguments axiosRequest {AuthCredential} toHeader this config.
Arguments request EHttpStatus EErrorCodes EApiErrors {AuthCredential} toHeader this config.
Arguments fetch EHttpStatus EErrorCodes EApiErrors {AuthCredential} toHeader {Args} new_Request
  this resourceType args.
Arguments post EHttpStatus EErrorCodes EApiErrors {AuthCredential} toHeader {Args} new_Request
  this resourceType args.

End FetcherService.

(* ===================================================================== *)
(** * TweetService *)
(* ===================================================================== *)

Module TweetService.

(** What the extractors of [helper/Extractors] return: the raw entities
    and the cursor. *)
Record Extracted : Type := {
  required : list json;
  cursor : string
}.

Section Service.

(** The deserialized tweet and the response of the underlying fetch. *)
Variable Tweet : Type.
Variable Response : Type.

(** The helpers [getTweetById] imports, none among the sources:
    [tweetDetailsUrl] of [helper/Requests], [extractTweet] of
    [helper/Extractors] and [toTweet] of [helper/Deserializers], the last
    two free to throw. *)
Variable tweetDetailsUrl : string -> string.
Variable extractTweet : json -> string -> completion Extracted.
Variable toTweet : jsval -> completion Tweet.

(** The operations of the base class and of the response that
    [getTweetById] calls: [this.readData(id)], whose value is a cached
    tweet or a falsy one ([None]); [this.fetchData(url, method, body,
    auth)]; [res.json()]; [this.cacheData(data)]. Each may fail. *)
Variant serviceE : Type -> Type :=
| ReadData (id : string) : serviceE (completion (option Tweet))
| FetchData (url : string) (method body : jsval) (auth : bool) : serviceE (completion Response)
| Json (res : Response) : serviceE (completion json)
| CacheData (data : Extracted) : serviceE (completion unit).

(** [getTweetById]. The cached value is returned when it is truthy;
    otherwise the promise chain runs: fetch, [res.json()], then the
    callback that extracts, caches and deserializes. *)
Definition getTweetById (tweetId : string) : Promise serviceE Tweet :=
  await (ITree.trigger (ReadData tweetId)) (fun cachedData =>
  match cachedData with
  | Some cached => Ret (ret cached)
  | None =>
      await (ITree.trigger (FetchData (tweetDetailsUrl tweetId) undefined undefined false))
        (fun res =>
      await (ITree.trigger (Json res)) (fun res =>
      await (Ret (extractTweet res tweetId)) (fun data =>
      await (ITree.trigger (CacheData data)) (fun _ =>
      Ret (toTweet (hd_error (required data)))))))
  end).

End Service.

Arguments ReadData {Tweet Response} id.
Arguments FetchData {Tweet Response} url method body auth.
Arguments Json {Tweet Response} res.
Arguments CacheData {Tweet Response} data.
Arguments getTweetById {Tweet Response} tweetDetailsUrl extractTweet toTweet tweetId.

End TweetService.

(* ===================================================================== *)
(** * The selection rules, as the specification words them *)
(* ===================================================================== *)

(** The nodes of [data] whose [__typename] is [tag], in document order. *)
Definition matching (tag : string) (data : json) : list json :=
  filter (hasTag "__typename" tag) (nodes data).

(** The [value] of the first node of [data] whose [cursorType] is
    [Bottom]; [undefined] when there is no such node. *)
Definition bottomCursor (data : json) : jsval :=
  match find (hasTag "cursorType" "Bottom") (nodes data) with
  | None => undefined
  | Some node => getPropOpt (Some node) "value"
  end.

(** [item.wrapper.result], as the callbacks of [extractData] evaluate it. *)
Definition project (wrapper : string) (item : json) : completion jsval :=
  let! w := getProp (Some item) wrapper in getProp w "result".

(** [node.wrapper] is there to be read from: neither missing nor [null]. *)
Definition hasWrapper (wrapper : string) (node : json) : bool :=
  match getPropOpt (Some node) wrapper with
  | None | Some JNull => false
  | Some _ => true
  end.

(** [node.wrapper.result], where the wrapper is there. *)
Definition resultOf (wrapper : string) (node : json) : jsval :=
  getPropOpt (getPropOpt (Some node) wrapper) "result".

(** A selection rule: the discriminator sought, and the wrapper to
    project the matching nodes through, if any. *)
Record rule : Type := {
  discriminator : string;
  projection : option string
}.

(** The rule of each resource type. *)
Definition ruleOf (type : EResourceType) : option rule :=
  match type with
  | TWEET_DETAILS => Some {| discriminator := "Tweet"; projection := None |}
  | USER_DETAILS | USER_DETAILS_BY_ID =>
      Some {| discriminator := "User"; projection := None |}
  | TWEET_SEARCH | USER_LIKES | LIST_TWEETS | USER_TWEETS =>
      Some {| discriminator := "TimelineTweet"; projection := Some "tweet_results" |}
  | TWEET_FAVORITERS | TWEET_RETWEETERS | USER_FOLLOWERS | USER_FOLLOWING =>
      Some {| discriminator := "TimelineUser"; projection := Some "user_results" |}
  | CREATE_TWEET | OTHER_RESOURCE _ => None
  end.

(** What a rule selects from a tree: nothing without a rule, the matching
    nodes, or their projections, the first missing wrapper raising a
    [TypeError]. *)
Definition applyRule (r : option rule) (data : json) : completion (list jsval) :=
  match r with
  | None => ret []
  | Some {| discriminator := tag; projection := None |} =>
      ret (List.map Some (matching tag data))
  | Some {| discriminator := tag; projection := Some wrapper |} =>
      if forallb (hasWrapper wrapper) (matching tag data)
      then ret (List.map (resultOf wrapper) (matching tag data))
      else throw TypeError
  end.

(** Every node that the rule of [type] projects carries its wrapper. *)
Definition wrapped (type : EResourceType) (data : json) : bool :=
  match ruleOf type with
  | Some {| discriminator := tag; projection := Some wrapper |} =>
      forallb (hasWrapper wrapper) (matching tag data)
  | _ => true
  end.

(** The resource types [extractData] has a branch for: one, two, four and
    four of them in its four branches. *)
Definition extractionTypes : list EResourceType :=
  [ TWEET_DETAILS; USER_DETAILS; USER_DETAILS_BY_ID;
    TWEET_SEARCH; USER_LIKES; LIST_TWEETS; USER_TWEETS;
    TWEET_FAVORITERS; TWEET_RETWEETERS; USER_FOLLOWERS; USER_FOLLOWING ].

(** A timeline page: two tweets, the second with an empty wrapper, and
    the two cursors. *)
Definition samplePage : json :=
  JObj [("data", JObj [("entries", JArr [
     JObj [("__typename", JStr "TimelineTweet");
           ("tweet_results", JObj [("result",
              JObj [("__typename", JStr "Tweet"); ("rest_id", JStr "1")])])];
     JObj [("__typename", JStr "TimelineTweet");
           ("tweet_results", JObj [])];
     JObj [("cursorType", JStr "Top"); ("value", JStr "t0")];
     JObj [("cursorType", JStr "Bottom"); ("value", JStr "b0")];
     JObj [("cursorType", JStr "Bottom"); ("value", JStr "b1")]])])].

(** A tree with one node of each kind the rules look for. *)
Definition sampleKinds : json :=
  JArr [
    JObj [("__typename", JStr "Tweet")];
    JObj [("__typename", JStr "User")];
    JObj [("__typename", JStr "TimelineTweet"); ("tweet_results", JObj [])];
    JObj [("__typename", JStr "TimelineUser"); ("user_results", JObj [])]].

(** [node] under [depth] levels of one-element arrays. *)
Fixpoint nest (depth : nat) (node : json) : json :=
  match depth with
  | O => node
  | S d => JArr [nest d node]
  end.

(** A page whose only entry is a timeline node without its wrapper. *)
Definition bareTimelinePage : json :=
  JObj [("entries", JArr [JObj [("__typename", JStr "TimelineTweet")]])].

(** ** Sample instances of the parameters *)

(** Enumeration objects in the shape a numeric [enum] compiles to: the
    reverse entries under the numbers first, then the members. *)
Definition sampleHttpStatus : enum_object string :=
  [("404", "NOT_FOUND"); ("429", "TOO_MANY_REQUESTS");
   ("NOT_FOUND", "404"); ("TOO_MANY_REQUESTS", "429")].

Definition sampleErrorCodes : enum_object string :=
  [("32", "COULD_NOT_AUTHENTICATE"); ("88", "RATE_LIMIT_EXCEEDED");
   ("COULD_NOT_AUTHENTICATE", "32"); ("RATE_LIMIT_EXCEEDED", "88")].

Definition sampleApiErrors : enum_object string :=
  [("COULD_NOT_AUTHENTICATE", "Failed to authenticate");
   ("RATE_LIMIT_EXCEEDED", "Too many requests")].

(** A credential as its list of cookies, and the header made of them. *)
Definition sampleHeader (cookies : list string) : json :=
  JObj [("cookie", JStr (String.concat ";" cookies))].

Definition sampleService : FetcherService.FetcherService (list string) :=
  FetcherService.Build_FetcherService
    ["auth_token=a"; "ct0=b"] (FetcherService.getHttpsAgent None).

Definition sampleRequest : FetcherService.Request :=
  {| FetcherService.url := "https://twitter.com/i/api/graphql/CreateTweet";
     FetcherService.type := "POST";
     FetcherService.payload := Some (JObj [("variables", JObj [])]) |}.

(** A [Request] constructor that accepts every argument. *)
Definition sampleNewRequest (resourceType : EResourceType) (args : unit)
  : completion FetcherService.Request :=
  ret sampleRequest.

(** A response with the given status and [errors], over the body
    [samplePage]. *)
Definition responseOf (status : Z) (errors : option (list IError)) : AxiosResponse :=
  {| status := status; data := {| errors := errors; tree := samplePage |} |}.

(** An environment for the fetcher: every axios call settles to [c], and
    the world counts the calls made. *)
Definition answering (c : completion AxiosResponse)
  : FetcherService.netE ~> Monads.stateT nat (itree void1) :=
  fun _ e calls =>
    match e with
    | FetcherService.Axios _ => Ret (S calls, c)
    end.

(** Sample helpers of the tweet service: the deserialized tweet is the
    [rest_id] of the raw one. *)
Definition sampleTweetDetailsUrl (tweetId : string) : string :=
  "/TweetDetail?focalTweetId=" ++ tweetId.

Definition sampleExtractTweet (res : json) (tweetId : string)
  : completion TweetService.Extracted :=
  ret {| TweetService.required := findByFilter res "__typename" "Tweet";
         TweetService.cursor := "" |}.

Definition sampleToTweet (raw : jsval) : completion string :=
  let! rest_id := getProp raw "rest_id" in
  match rest_id with
  | Some (JStr id) => ret id
  | _ => throw TypeError
  end.

(** An environment for the tweet service: a cache that holds the tweet
    ["42"] only, a network that answers every fetch with [samplePage], and
    a world that logs the operations performed. *)
Definition logging
  : TweetService.serviceE string json ~> Monads.stateT (list string) (itree void1) :=
  fun _ e log =>
    match e with
    | TweetService.ReadData id =>
        Ret (log ++ ["readData"],
             ret (if String.eqb id "42" then Some "cached 42" else None))
    | TweetService.FetchData url _ _ _ => Ret (log ++ ["fetchData"], ret samplePage)
    | TweetService.Json res => Ret (log ++ ["json"], ret res)
    | TweetService.CacheData _ => Ret (log ++ ["cacheData"], ret tt)
    end.

(* ===================================================================== *)
(** * Strings the services build *)
(* ===================================================================== *)

(** [s.split(sep)] for a separator of one character: the pieces between
    the separators, the empty string giving one empty piece. *)
Fixpoint split (sep : ascii) (s : string) : list string :=
  match s with
  | EmptyString => [EmptyString]
  | String c rest =>
      if Ascii.eqb c sep then EmptyString :: split sep rest
      else match split sep rest with
           | piece :: pieces => String c piece :: pieces
           | [] => [String c EmptyString]
           end
  end.

(** The occurrences of a character in a string. *)
Fixpoint occurrences (c : ascii) (s : string) : nat :=
  match s with
  | EmptyString => 0
  | String d rest => (if Ascii.eqb d c then 1 else 0) + occurrences c rest
  end.

(** The bytes that the [application/x-www-form-urlencoded] serializer
    leaves as they are: the ASCII letters and digits and [*], [-], [.],
    [_]. *)
Definition formSafe (c : ascii) : bool :=
  let n := nat_of_ascii c in
  (((48 <=? n) && (n <=? 57)) || ((65 <=? n) && (n <=? 90))
   || ((97 <=? n) && (n <=? 122))
   || (n =? 42) || (n =? 45) || (n =? 46) || (n =? 95))%nat.

(** An upper-case hexadecimal digit. *)
Definition hexDigit (n : nat) : ascii :=
  nth n ["0"; "1"; "2"; "3"; "4"; "5"; "6"; "7"; "8"; "9";
         "A"; "B"; "C"; "D"; "E"; "F"]%char "0"%char.

(** One byte in the serialization: itself when safe, [+] for the space,
    [%] and two hexadecimal digits otherwise. *)
Definition formEncodeByte (c : ascii) : string :=
  if formSafe c then String c EmptyString
  else if Ascii.eqb c " " then "+"
  else String "%" (String (hexDigit (nat_of_ascii c / 16))
                     (String (hexDigit (nat_of_ascii c mod 16)) EmptyString)).

(** A name or a value in the serialization; the string holds the bytes of
    its UTF-8 encoding. *)
Fixpoint formEncode (s : string) : string :=
  match s with
  | EmptyString => EmptyString
  | String c rest => (formEncodeByte c ++ formEncode rest)%string
  end.



(** [URLSearchParams]: the list of its name-value pairs. *)
Definition URLSearchParams : Type := list (string * string).

(** [new URLSearchParams()]. *)
Definition new_URLSearchParams : URLSearchParams := [].

(** [params.append(name, value)]. *)
Definition append (params : URLSearchParams) (name value : string) : URLSearchParams :=
  params ++ [(name, value)].

(** [params.toString()]: the pairs as [name=value], joined by [&]. *)
Definition toString (params : URLSearchParams) : string :=
  String.concat "&"
    (List.map (fun nv => (formEncode (fst nv) ++ "=" ++ formEncode (snd nv))%string) params).

(** [obj[key] = value] on the entries of an object: the binding of [key]
    is replaced where it stands, or added after the others. *)
Fixpoint setField (key : string) (value : json) (fields : list (string * json))
  : list (string * json) :=
  match fields with
  | [] => [(key, value)]
  | (k, v) :: rest =>
      if String.eqb k key then (k, value) :: rest
      else (k, v) :: setField key value rest
  end.

(* ===================================================================== *)
(** * FetcherService: the constructor and the direct calls *)
(* ===================================================================== *)

Module FetcherServiceCalls.

(** The configuration of a call to axios in full: [request] sets the
    agent, the direct calls leave it out and send a body or none. *)
Record AxiosRequestConfig : Type := {
  url : string;
  method : string;
  data : jsval;
  headers : json;
  httpsAgent : option FetcherService.Agent
}.

(** The configuration [request] creates, among these. *)
Definition ofRequest (config : FetcherService.AxiosRequestConfig) : AxiosRequestConfig :=
  {| url := FetcherService.config_url config;
     method := FetcherService.config_method config;
     data := FetcherService.config_data config;
     headers := FetcherService.config_headers config;
     httpsAgent := Some (FetcherService.config_httpsAgent config) |}.

(** The call [axios(config)] of the direct calls. *)
Variant axiosE : Type -> Type :=
| Axios (config : AxiosRequestConfig) : axiosE (completion AxiosResponse).

Section Calls.

Variable EHttpStatus : enum_object string.
Variable EErrorCodes : enum_object string.
Variable EApiErrors : enum_object string.

(** [AuthCredential] of rettiwt-auth: its constructor, free to throw, and
    the entries of the object [toHeader] returns. *)
Variable AuthCredential : Type.
Variable new_AuthCredential : list string -> completion AuthCredential.
Variable toHeader : AuthCredential -> list (string * json).

(** The string each member of [EResourceType] stands for. *)
Variable EResourceType_value : EResourceType -> string.

(** [getAuthCredential]. *)
Definition getAuthCredential (apiKey : string) : completion AuthCredential :=
  new_AuthCredential (split ";" apiKey).

(** The constructor: the credential, then the agent. *)
Definition constructor (apiKey : string) (proxyUrl : option string)
  : completion (FetcherService.FetcherService AuthCredential) :=
  let! cred := getAuthCredential apiKey in
  ret (FetcherService.Build_FetcherService cred (FetcherService.getHttpsAgent proxyUrl)).

(** The headers of [postFollow] and [unFollow]: a copy of the credential's
    with the content type set. *)
Definition formHeaders (this : FetcherService.FetcherService AuthCredential) : json :=
  JObj (setField "Content-Type" (JStr "application/x-www-form-urlencoded")
          (toHeader (FetcherService.cred this))).

(** The parameters of [postFollow]. *)
Definition postFollowParams (id : string) : URLSearchParams :=
  let params := new_URLSearchParams in
  let params := append params "include_profile_interstitial_type" "1" in
  let params := append params "include_blocking" "1" in
  let params := append params "include_blocked_by" "1" in
  let params := append params "include_followed_by" "1" in
  let params := append params "include_want_retweets" "1" in
  let params := append params "include_mute_edge" "1" in
  let params := append params "include_can_dm" "1" in
  let params := append params "include_can_media_tag" "1" in
  let params := append params "include_ext_has_nft_avatar" "1" in
  let params := append params "include_ext_is_blue_verified" "1" in
  let params := append params "include_ext_verified_type" "1" in
  let params := append params "include_ext_profile_image_shape" "1" in
  append params "user_id" id.

(** The parameters of [unFollow]. *)
Definition unFollowParams (id : string) : URLSearchParams :=
  let params := new_URLSearchParams in
  let params := append params "include_profile_interstitial_type" "1" in
  let params := append params "include_blocking" "1" in
  let params := append params "include_blocked_by" "1" in
  let params := append params "include_followed_by" "1" in
  let params := append params "include_want_retweets" "1" in
  let params := append params "include_mute_edge" "1" in
  let params := append params "include_can_dm" "1" in
  let params := append params "include_can_media_tag" "1" in
  let params := append params "include_ext_has_nft_avatar" "1" in
  let params := append params "include_ext_is_blue_verified" "1" in
  let params := append params "include_ext_verified_type" "1" in
  let params := append params "include_ext_profile_image_shape" "1" in
  let params := append params "skip_status" "1" in
  append params "user_id" id.

(** The configuration [postFollow] hands to axios. *)
Definition postFollowRequest (this : FetcherService.FetcherService AuthCredential)
           (id : string) : AxiosRequestConfig :=
  {| url := "https://twitter.com/i/api/1.1/friendships/create.json";
     method := "POST";
     data := Some (JStr (toString (postFollowParams id)));
     headers := formHeaders this;
     httpsAgent := None |}.

(** [postFollow]. *)
Definition postFollow (this : FetcherService.FetcherService AuthCredential) (id : string)
  : Promise axiosE AxiosResponse :=
  then_ (then_ (ITree.trigger (Axios (postFollowRequest this id)))
               (FetcherService.handleHttpError EHttpStatus))
        (FetcherService.handleApiError EErrorCodes EApiErrors).

(** The configuration [unFollow] hands to axios. *)
Definition unFollowRequest (this : FetcherService.FetcherService AuthCredential)
           (id : string) : AxiosRequestConfig :=
  {| url := "https://twitter.com/i/api/1.1/friendships/destroy.json";
     method := "POST";
     data := Some (JStr (toString (unFollowParams id)));
     headers := formHeaders this;
     httpsAgent := None |}.

(** [unFollow]. *)
Definition unFollow (this : FetcherService.FetcherService AuthCredential) (id : string)
  : Promise axiosE AxiosResponse :=
  then_ (then_ (ITree.trigger (Axios (unFollowRequest this id)))
               (FetcherService.handleHttpError EHttpStatus))
        (FetcherService.handleApiError EErrorCodes EApiErrors).

(** The conversation of two accounts, as both message calls write it:
    [`${otherId}-${myId}`]. *)
Definition conversation (myId otherId : string) : string :=
  (otherId ++ "-" ++ myId)%string.

(** The query string of [getMessages]. *)
Definition getMessagesQuery : string :=
  "?context=FETCH_DM_CONVERSATION&include_profile_interstitial_type=1&include_blocking=1&include_blocked_by=1&include_followed_by=1&include_want_retweets=1&include_mute_edge=1&include_can_dm=1&include_can_media_tag=1&include_ext_has_nft_avatar=1&include_ext_is_blue_verified=1&include_ext_verified_type=1&include_ext_profile_image_shape=1&skip_status=1&dm_secret_conversations_enabled=false&krs_registration_enabled=true&cards_platform=Web-12&include_cards=1&include_ext_alt_text=true&include_ext_limited_action_results=true&include_quote_count=true&include_reply_count=1&tweet_mode=extended&include_ext_views=true&dm_users=false&include_groups=true&include_inbox_timelines=true&include_ext_media_color=true&supports_reactions=true&include_conversation_info=true&ext=mediaColor%2CaltText%2CmediaStats%2ChighlightedLabel%2ChasNftAvatar%2CvoiceInfo%2CbirdwatchPivot%2CsuperFollowMetadata%2CunmentionInfo%2CeditControl".

(** The configuration [getMessages] hands to axios: no body, and the
    credential's headers as they are. *)
Definition getMessagesRequest (this : FetcherService.FetcherService AuthCredential)
           (myId otherId : string) : AxiosRequestConfig :=
  {| url := ("https://twitter.com/i/api/1.1/dm/conversation/"
             ++ conversation myId otherId ++ ".json" ++ getMessagesQuery)%string;
     method := "GET";
     data := undefined;
     headers := JObj (toHeader (FetcherService.cred this));
     httpsAgent := None |}.

(** [getMessages]. *)
Definition getMessages (this : FetcherService.FetcherService AuthCredential)
           (myId otherId : string) : Promise axiosE AxiosResponse :=
  then_ (then_ (ITree.trigger (Axios (getMessagesRequest this myId otherId)))
               (FetcherService.handleHttpError EHttpStatus))
        (FetcherService.handleApiError EErrorCodes EApiErrors).

(** The configuration [sendMessage] hands to axios. *)
Definition sendMessageRequest (this : FetcherService.FetcherService AuthCredential)
           (myId otherId text uuid : string) : AxiosRequestConfig :=
  {| url := "https://twitter.com/i/api/1.1/dm/new2.json?ext=mediaColor,altText,mediaStats,highlightedLabel,hasNftAvatar,voiceInfo,birdwatchPivot,superFollowMetadata,unmentionInfo,editControl&include_ext_alt_text=true&include_ext_limited_action_results=true&include_reply_count=1&tweet_mode=extended&include_ext_views=true&include_groups=true&include_inbox_timelines=true&include_ext_media_color=true&supports_reactions=true";
     method := "POST";
     data := Some (JObj [("cards_platform", JStr "Web-12");
                         ("conversation_id", JStr (conversation myId otherId));
                         ("dm_users", JBool false);
                         ("include_cards", JNum 1);
                         ("include_quote_count", JBool true);
                         ("recipient_ids", JBool false);
                         ("request_id", JStr uuid);
                         ("text", JStr text)]);
     headers := JObj (toHeader (FetcherService.cred this));
     httpsAgent := None |}.

(** [sendMessage]. *)
Definition sendMessage (this : FetcherService.FetcherService AuthCredential)
           (myId otherId text uuid : string) : Promise axiosE AxiosResponse :=
  then_ (then_ (ITree.trigger (Axios (sendMessageRequest this myId otherId text uuid)))
               (FetcherService.handleHttpError EHttpStatus))
        (FetcherService.handleApiError EErrorCodes EApiErrors).

(** The feature switches [replyTweet] sends. *)
Definition replyTweetFeatures : json :=
  JObj [("tweetypie_unmention_optimization_enabled", JBool true);
        ("responsive_web_edit_tweet_api_enabled", JBool true);
        ("graphql_is_translatable_rweb_tweet_is_translatable_enabled", JBool true);
        ("view_counts_everywhere_api_enabled", JBool true);
        ("longform_notetweets_consumption_enabled", JBool true);
        ("responsive_web_twitter_article_tweet_consumption_enabled", JBool false);
        ("tweet_awards_web_tipping_enabled", JBool false);
        ("responsive_web_home_pinned_timelines_enabled", JBool false);
        ("longform_notetweets_rich_text_read_enabled", JBool true);
        ("longform_notetweets_inline_media_enabled", JBool true);
        ("responsive_web_graphql_exclude_directive_enabled", JBool true);
        ("verified_phone_label_enabled", JBool false);
        ("freedom_of_speech_not_reach_fetch_enabled", JBool true);
        ("standardized_nudges_misinfo", JBool true);
        ("tweet_with_visibility_results_prefer_gql_limited_actions_policy_enabled", JBool true);
        ("responsive_web_media_download_video_enabled", JBool false);
        ("responsive_web_graphql_skip_user_profile_image_extensions_enabled", JBool false);
        ("responsive_web_graphql_timeline_navigation_enabled", JBool true);
        ("responsive_web_enhance_cards_enabled", JBool false)].

(** The configuration [replyTweet] hands to axios. *)
Definition replyTweetRequest (this : FetcherService.FetcherService AuthCredential)
           (tweetId text : string) : AxiosRequestConfig :=
  {| url := ("https://twitter.com" ++ EResourceType_value CREATE_TWEET)%string;
     method := "POST";
     data := Some (JObj [
       ("variables", JObj [
          ("tweet_text", JStr text);
          ("reply", JObj [("in_reply_to_tweet_id", JStr tweetId);
                          ("exclude_reply_user_ids", JArr [])]);
          ("dark_request", JBool false);
          ("media", JObj [("media_entities", JArr []);
                          ("possibly_sensitive", JBool false)]);
          ("semantic_annotation_ids", JArr [])]);
       ("features", replyTweetFeatures);
       ("queryId", JStr "tTsjMKyhajZvK4q76mpIBg")]);
     headers := JObj (toHeader (FetcherService.cred this));
     httpsAgent := None |}.

(** [replyTweet]. *)
Definition replyTweet (this : FetcherService.FetcherService AuthCredential)
           (tweetId text : string) : Promise axiosE AxiosResponse :=
  then_ (then_ (ITree.trigger (Axios (replyTweetRequest this tweetId text)))
               (FetcherService.handleHttpError EHttpStatus))
        (FetcherService.handleApiError EErrorCodes EApiErrors).

End Calls.

Arguments getAuthCredential {AuthCredential} new_AuthCredential apiKey.
Arguments constructor {AuthCredential} new_AuthCredential apiKey proxyUrl.
Arguments formHeaders {AuthCredential} toHeader this.
Arguments postFollowRequest {AuthCredential} toHeader this id.
Arguments unFollowRequest {AuthCredential} toHeader this id.
Arguments getMessagesRequest {AuthCredential} toHeader this myId otherId.
Arguments sendMessageRequest {AuthCredential} toHeader this myId otherId text uuid.
Arguments replyTweetRequest {AuthCredential} toHeader EResourceType_value this tweetId text.
Arguments postFollow EHttpStatus EErrorCodes EApiErrors {AuthCredential} toHeader this id.
Arguments unFollow EHttpStatus EErrorCodes EApiErrors {AuthCredential} toHeader this id.
Arguments getMessages EHttpStatus EErrorCodes EApiErrors {AuthCredential} toHeader
  this myId otherId.
Arguments sendMessage EHttpStatus EErrorCodes EApiErrors {AuthCredential} toHeader
  this myId otherId text uuid.
Arguments replyTweet EHttpStatus EErrorCodes EApiErrors {AuthCredential} toHeader
  EResourceType_value this tweetId text.

End FetcherServiceCalls.

(* ===================================================================== *)
(** * TweetService: the listings *)
(* ===================================================================== *)

(** [CursoredData] of [types/Service], as the listings build it: the
    deserialized entities and the cursor to the next batch. *)
Module Service.
Record CursoredData (T : Type) : Type := {
  list : Datatypes.list T;
  next : string
}.
Arguments list {T} _.
Arguments next {T} _.
End Service.

Module TweetServiceLists.

Section Lists.

(** The deserialized tweet and user, the response of the underlying fetch
    and the filter of a search. *)
Variable Tweet : Type.
Variable User : Type.
Variable Response : Type.
Variable TweetFilter : Type.

(** The helpers the listings import, none among the sources: the urls of
    [helper/Requests], the extractors of [helper/Extractors] and the
    deserializers of [helper/Deserializers], the last two kinds free to
    throw. *)
Variable tweetsUrl : TweetFilter -> string -> string.
Variable tweetRepliesUrl : string -> string -> string.
Variable tweetLikesUrl : string -> Z -> string -> string.
Variable tweetRetweetUrl : string -> Z -> string -> string.
Variable extractTweets : json -> completion TweetService.Extracted.
Variable extractTweetLikers : json -> completion TweetService.Extracted.
Variable extractTweetRetweeters : json -> completion TweetService.Extracted.
Variable extractTweetReplies : json -> string -> completion TweetService.Extracted.
Variable toTweet : jsval -> completion Tweet.
Variable toUser : jsval -> completion User.

(** The operations of the base class and of the response that the
    listings call: [this.fetchData(url)], the other parameters left to
    their defaults; [res.json()]; [this.cacheData(data)]. *)
Variant listE : Type -> Type :=
| FetchData (url : string) : listE (completion Response)
| Json (res : Response) : listE (completion json)
| CacheData (data : TweetService.Extracted) : listE (completion unit).

(** [getTweets]. *)
Definition getTweets (filter : TweetFilter) (cursor : string)
  : Promise listE (Service.CursoredData Tweet) :=
  await (ITree.trigger (FetchData (tweetsUrl filter cursor))) (fun res =>
  await (ITree.trigger (Json res)) (fun res =>
  await (Ret (extractTweets res)) (fun data =>
  await (ITree.trigger (CacheData data)) (fun _ =>
  await (Ret (mapM (fun item => toTweet (Some item)) (TweetService.required data)))
    (fun tweets =>
  Ret (ret {| Service.list := tweets; Service.next := TweetService.cursor data |})))))).

(** [getTweetLikers]. *)
Definition getTweetLikers (tweetId : string) (count : Z) (cursor : string)
  : Promise listE (Service.CursoredData User) :=
  await (ITree.trigger (FetchData (tweetLikesUrl tweetId count cursor))) (fun res =>
  await (ITree.trigger (Json res)) (fun res =>
  await (Ret (extractTweetLikers res)) (fun data =>
  await (ITree.trigger (CacheData data)) (fun _ =>
  await (Ret (mapM (fun item => toUser (Some item)) (TweetService.required data)))
    (fun users =>
  Ret (ret {| Service.list := users; Service.next := TweetService.cursor data |})))))).

(** [getTweetRetweeters]. *)
Definition getTweetRetweeters (tweetId : string) (count : Z) (cursor : string)
  : Promise listE (Service.CursoredData User) :=
  await (ITree.trigger (FetchData (tweetRetweetUrl tweetId count cursor))) (fun res =>
  await (ITree.trigger (Json res)) (fun res =>
  await (Ret (extractTweetRetweeters res)) (fun data =>
  await (ITree.trigger (CacheData data)) (fun _ =>
  await (Ret (mapM (fun item => toUser (Some item)) (TweetService.required data)))
    (fun users =>
  Ret (ret {| Service.list := users; Service.next := TweetService.cursor data |})))))).

(** [getTweetReplies]. *)
Definition getTweetReplies (tweetId : string) (cursor : string)
  : Promise listE (Service.CursoredData Tweet) :=
  await (ITree.trigger (FetchData (tweetRepliesUrl tweetId cursor))) (fun res =>
  await (ITree.trigger (Json res)) (fun res =>
  await (Ret (extractTweetReplies res tweetId)) (fun data =>
  await (ITree.trigger (CacheData data)) (fun _ =>
  await (Ret (mapM (fun item => toTweet (Some item)) (TweetService.required data)))
    (fun tweets =>
  Ret (ret {| Service.list := tweets; Service.next := TweetService.cursor data |})))))).

End Lists.

Arguments FetchData {Response} url.
Arguments Json {Response} res.
Arguments CacheData {Response} data.
Arguments getTweets {Tweet Response TweetFilter} tweetsUrl extractTweets toTweet filter cursor.
Arguments getTweetLikers {User Response} tweetLikesUrl extractTweetLikers toUser
  tweetId count cursor.
Arguments getTweetRetweeters {User Response} tweetRetweetUrl extractTweetRetweeters toUser
  tweetId count cursor.
Arguments getTweetReplies {Tweet Response} tweetRepliesUrl extractTweetReplies toTweet
  tweetId cursor.

End TweetServiceLists.

(* ===================================================================== *)
(** * Further properties, in words of their own *)
(* ===================================================================== *)


Section ListingRuns.

Context {Response T W : Type}.

(** An environment, and a listing with the url it fetches, its extractor
    and its deserializer. *)
Variable h : TweetServiceLists.listE Response ~> Monads.stateT W (itree void1).
Variable listing : Promise (TweetServiceLists.listE Response) (Service.CursoredData T).
Variable url : string.
Variable extract : json -> completion TweetService.Extracted.
Variable deserialize : jsval -> completion T.

(** When the page is fetched, read, extracted and cached and every raw
    entity deserializes, the listing is fulfilled with the deserialized
    entities, one for each raw one and in their order, and with the cursor
    of the extraction. *)
Definition listingFulfils (w : W) : Prop :=
  forall w1 w2 w3 res body data items,
    h _ (TweetServiceLists.FetchData url) w ≈ Ret (w1, ret res) ->
    h _ (TweetServiceLists.Json res) w1 ≈ Ret (w2, ret body) ->
    extract body = ret data ->
    h _ (TweetServiceLists.CacheData data) w2 ≈ Ret (w3, ret tt) ->
    Forall2 (fun raw item => deserialize (Some raw) = ret item)
            (TweetService.required data) items ->
    interp_state h listing w
    ≈ Ret (w3, ret {| Service.list := items; Service.next := TweetService.cursor data |}).

(** When a raw entity fails to deserialize, the listing is rejected with
    the error of the first that fails, after the extraction has been
    cached. *)
Definition listingFailsCached (w : W) : Prop :=
  forall w1 w2 w3 res body data before raw after e,
    h _ (TweetServiceLists.FetchData url) w ≈ Ret (w1, ret res) ->
    h _ (TweetServiceLists.Json res) w1 ≈ Ret (w2, ret body) ->
    extract body = ret data ->
    h _ (TweetServiceLists.CacheData data) w2 ≈ Ret (w3, ret tt) ->
    TweetService.required data = before ++ raw :: after ->
    Forall (fun x => exists item, deserialize (Some x) = ret item) before ->
    deserialize (Some raw) = throw e ->
    interp_state h listing w ≈ Ret (w3, throw e).

(** When the fetch, the reading of the body or the extraction fails, the
    listing is rejected with that error and nothing is cached: the world
    is the one the failing operation left. A failure of the caching
    itself rejects the listing too. *)
Definition listingFailsUncached (w : W) : Prop :=
  forall e,
    (forall w1,
        h _ (TweetServiceLists.FetchData url) w ≈ Ret (w1, throw e) ->
        interp_state h listing w ≈ Ret (w1, throw e))
    /\ (forall w1 w2 res,
          h _ (TweetServiceLists.FetchData url) w ≈ Ret (w1, ret res) ->
          h _ (TweetServiceLists.Json res) w1 ≈ Ret (w2, throw e) ->
          interp_state h listing w ≈ Ret (w2, throw e))
    /\ (forall w1 w2 res body,
          h _ (TweetServiceLists.FetchData url) w ≈ Ret (w1, ret res) ->
          h _ (TweetServiceLists.Json res) w1 ≈ Ret (w2, ret body) ->
          extract body = throw e ->
          interp_state h listing w ≈ Ret (w2, throw e))
    /\ (forall w1 w2 w3 res body data,
          h _ (TweetServiceLists.FetchData url) w ≈ Ret (w1, ret res) ->
          h _ (TweetServiceLists.Json res) w1 ≈ Ret (w2, ret body) ->
          extract body = ret data ->
          h _ (TweetServiceLists.CacheData data) w2 ≈ Ret (w3, throw e) ->
          interp_state h listing w ≈ Ret (w3, throw e)).

End ListingRuns.

(** ** Sample instances for the further code *)

(** An environment for the direct calls: every axios call settles to [c],
    and the world counts the calls made. *)
Definition answeringDirect (c : completion AxiosResponse)
  : FetcherServiceCalls.axiosE ~> Monads.stateT nat (itree void1) :=
  fun _ e calls =>
    match e with
    | FetcherServiceCalls.Axios _ => Ret (S calls, c)
    end.

(** A credential made of its cookies, whatever they are, and its header
    as entries. *)
Definition sampleNewAuthCredential (cookies : list string) : completion (list string) :=
  ret cookies.

Definition sampleHeaderEntries (cookies : list string) : list (string * json) :=
  [("cookie", JStr (String.concat ";" cookies))].

(** A [Request] constructor that rejects every argument. *)
Definition rejectingNewRequest (resourceType : EResourceType) (args : unit)
  : completion FetcherService.Request :=
  throw (Error "Invalid arguments").

(** An environment for [getTweetById] in which the operation called
    [failing] fails with an error of that name; the cache is empty. *)
Definition loggingFailing (failing : string)
  : TweetService.serviceE string json ~> Monads.stateT (list string) (itree void1) :=
  fun _ e log =>
    match e with
    | TweetService.ReadData id =>
        Ret (log ++ ["readData"],
             if String.eqb failing "readData" then throw (Error failing) else ret None)
    | TweetService.FetchData url _ _ _ =>
        Ret (log ++ ["fetchData"],
             if String.eqb failing "fetchData" then throw (Error failing)
             else ret samplePage)
    | TweetService.Json res =>
        Ret (log ++ ["json"],
             if String.eqb failing "json" then throw (Error failing) else ret res)
    | TweetService.CacheData _ =>
        Ret (log ++ ["cacheData"],
             if String.eqb failing "cacheData" then throw (Error failing) else ret tt)
    end.

(** The same for the listings. *)
Definition loggingLists (failing : string)
  : TweetServiceLists.listE json ~> Monads.stateT (list string) (itree void1) :=
  fun _ e log =>
    match e with
    | TweetServiceLists.FetchData url =>
        Ret (log ++ ["fetchData"],
             if String.eqb failing "fetchData" then throw (Error failing)
             else ret samplePage)
    | TweetServiceLists.Json res =>
        Ret (log ++ ["json"],
             if String.eqb failing "json" then throw (Error failing) else ret res)
    | TweetServiceLists.CacheData _ =>
        Ret (log ++ ["cacheData"],
             if String.eqb failing "cacheData" then throw (Error failing) else ret tt)
    end.

(** Sample helpers of the listings: the url of a search, an extractor of
    the tweets of a page and one of its timeline entries, which have no
    [rest_id] for [sampleToTweet] to read. *)
Definition sampleTweetsUrl (filter : string) (cursor : string) : string :=
  ("/SearchTimeline?q=" ++ filter ++ "&cursor=" ++ cursor)%string.

Definition sampleExtractTweets (res : json) : completion TweetService.Extracted :=
  ret {| TweetService.required := findByFilter res "__typename" "Tweet";
         TweetService.cursor := "b0" |}.

Definition sampleExtractEntries (res : json) : completion TweetService.Extracted :=
  ret {| TweetService.required := findByFilter res "__typename" "TimelineTweet";
         TweetService.cursor := "b0" |}.

Definition failingExtract (res : json) : completion TweetService.Extracted :=
  throw TypeError.

(* ===================================================================== *)
(** * Lemmas on the walk *)
(* ===================================================================== *)

Lemma filter_flat_map {A B} (p : B -> bool) (g : A -> list B) (l : list A) :
  filter p (flat_map g l) = flat_map (fun a => filter p (g a)) l.
Proof.
  induction l as [|a l IH]; simpl.
  - reflexivity.
  - rewrite filter_app, IH. reflexivity.
Qed.

Lemma flat_map_Forall_ext {A B} (f g : A -> list B) (l : list A) :
  Forall (fun a => f a = g a) l -> flat_map f l = flat_map g l.
Proof.
  induction 1 as [|a l Ha _ IH]; simpl.
  - reflexivity.
  - rewrite Ha, IH. reflexivity.
Qed.

(** The walk keeps exactly the tagged nodes, in document order. *)
Lemma findByFilter_nodes (key value : string) (data : json) :
  findByFilter data key value = filter (hasTag key value) (nodes data).
Proof.
  induction data as [| b | n | s | items IH | fields IH] using json_nested_ind;
    try reflexivity.
  - cbn [findByFilter nodes filter hasTag].
    rewrite filter_flat_map. apply flat_map_Forall_ext. exact IH.
  - cbn [findByFilter nodes filter].
    rewrite filter_flat_map.
    rewrite (flat_map_Forall_ext _ _ fields IH).
    destruct (hasTag key value (JObj fields)); reflexivity.
Qed.

(** [nodes] lists the subnodes, and nothing else. *)
Lemma In_nodes_subnode (data n : json) : In n (nodes data) <-> subnode n data.
Proof.
  split.
  - revert n.
    induction data as [| b | z | s | items IH | fields IH] using json_nested_ind;
      intros n [<- | Hin]; try apply subnode_self; try contradiction.
    + apply in_flat_map in Hin as [c [Hc Hn]].
      rewrite Forall_forall in IH.
      eapply subnode_step; [apply (IH c Hc n Hn) | constructor; exact Hc].
    + apply in_flat_map in Hin as [[k c] [Hc Hn]].
      rewrite Forall_forall in IH.
      eapply subnode_step; [apply (IH (k, c) Hc n Hn) | econstructor; exact Hc].
  - induction 1 as [j | n c p _ IH Hc].
    + destruct j; left; reflexivity.
    + destruct Hc as [items c Hc | fields k c Hc]; right; apply in_flat_map.
      * exists c. split; assumption.
      * exists (k, c). split; assumption.
Qed.

(** Membership in [matching], without the enumeration. *)
Lemma In_matching (tag : string) (data n : json) :
  In n (matching tag data) <-> subnode n data /\ hasTag "__typename" tag n = true.
Proof.
  unfold matching. rewrite filter_In, In_nodes_subnode. reflexivity.
Qed.

(** The walk is a total function of the tree and reaches a node however
    deep it lies. *)
Remark findByFilter_any_depth (depth : nat) (node : json) (key value : string) :
  findByFilter (nest depth node) key value = findByFilter node key value.
Proof.
  induction depth as [|d IH]; [reflexivity|].
  cbn [nest findByFilter flat_map]. rewrite IH. apply app_nil_r.
Qed.

Lemma hd_error_filter {A} (p : A -> bool) (l : list A) :
  hd_error (filter p l) = find p l.
Proof.
  induction l as [|a l IH]; simpl; [reflexivity|].
  destruct (p a); [reflexivity | exact IH].
Qed.

(** The cursor expression of [extractData] reads the first [Bottom] node. *)
Lemma cursor_expression (data : json) :
  getPropOpt (hd_error (findByFilter data "cursorType" "Bottom")) "value"
  = bottomCursor data.
Proof.
  rewrite findByFilter_nodes, hd_error_filter. unfold bottomCursor.
  destruct (find (hasTag "cursorType" "Bottom") (nodes data)); reflexivity.
Qed.

Lemma project_hasWrapper (wrapper : string) (item : json) :
  project wrapper item
  = if hasWrapper wrapper item then ret (resultOf wrapper item) else throw TypeError.
Proof.
  unfold project, hasWrapper, resultOf.
  destruct item as [| b | n | s | items | fields]; try reflexivity.
  cbn [getProp getPropOpt bind ret].
  destruct (field wrapper fields) as [[| b | n | s | items | fields'] |]; reflexivity.
Qed.

(** Mapping the projection over a list: all wrappers are there, or the
    first missing one throws. *)
Lemma mapM_project (wrapper : string) (l : list json) :
  mapM (project wrapper) l
  = if forallb (hasWrapper wrapper) l
    then ret (List.map (resultOf wrapper) l)
    else throw TypeError.
Proof.
  induction l as [|item l IH]; [reflexivity|].
  cbn [mapM forallb List.map]. rewrite project_hasWrapper, IH.
  destruct (hasWrapper wrapper item); [|reflexivity].
  destruct (forallb (hasWrapper wrapper) l); reflexivity.
Qed.

(** [extractData] applies the rule of its resource type, then reads the
    cursor. *)
Lemma extractData_applyRule (data : json) (type : EResourceType) :
  FetcherService.extractData data type
  = let! required := applyRule (ruleOf type) data in
    ret (new_CursoredData required (bottomCursor data)).
Proof.
  unfold FetcherService.extractData. rewrite cursor_expression.
  fold (project "tweet_results") (project "user_results").
  destruct type; cbn [EResourceType_eqb orb ruleOf applyRule];
    rewrite ?findByFilter_nodes, ?mapM_project; reflexivity.
Qed.

(** A tree without a [Bottom] node has no cursor. *)
Lemma bottomCursor_absent (data : json) :
  (forall n, subnode n data -> hasTag "cursorType" "Bottom" n = false) ->
  bottomCursor data = undefined.
Proof.
  intros Hnone. unfold bottomCursor.
  destruct (find (hasTag "cursorType" "Bottom") (nodes data)) as [n|] eqn:Hfind;
    [|reflexivity].
  apply find_some in Hfind as [Hin Htag].
  rewrite (Hnone n) in Htag by (apply In_nodes_subnode, Hin). discriminate.
Qed.

(** The first [Bottom] node is the one no [Bottom] node precedes. *)
Lemma bottomCursor_first (data : json) (before : list json) (node : json) (after : list json) :
  nodes data = before ++ node :: after ->
  Forall (fun n => hasTag "cursorType" "Bottom" n = false) before ->
  hasTag "cursorType" "Bottom" node = true ->
  bottomCursor data = getPropOpt (Some node) "value".
Proof.
  intros Hsplit Hbefore Hnode. unfold bottomCursor. rewrite Hsplit.
  clear Hsplit. induction Hbefore as [|n before Hn _ IH]; simpl.
  - rewrite Hnode. reflexivity.
  - rewrite Hn. exact IH.
Qed.

(** A resource type outside [extractionTypes] has no rule. *)
Lemma ruleOf_outside (type : EResourceType) :
  ~ In type extractionTypes -> ruleOf type = None.
Proof.
  intros Hout. destruct type; try reflexivity; exfalso; apply Hout; simpl; tauto.
Qed.

(* ===================================================================== *)
(** * Theorems on [extractData] *)
(* ===================================================================== *)

(** C1. For the detail resource types [extractData] returns a
    [CursoredData] whose entity list is exactly the nodes of the tree
    carrying the discriminator, in document order: the nodes whose
    [__typename] is [Tweet] for [TWEET_DETAILS], those whose [__typename]
    is [User] for [USER_DETAILS] and [USER_DETAILS_BY_ID]; they sit
    alongside the pagination cursor. A node is in the list if and only if it
    is a subnode of the tree and carries the tag. *)
Theorem extractData_details (data : json) :
  FetcherService.extractData data TWEET_DETAILS
  = ret (new_CursoredData (List.map Some (matching "Tweet" data)) (bottomCursor data))
  /\ FetcherService.extractData data USER_DETAILS
     = ret (new_CursoredData (List.map Some (matching "User" data)) (bottomCursor data))
  /\ FetcherService.extractData data USER_DETAILS_BY_ID
     = ret (new_CursoredData (List.map Some (matching "User" data)) (bottomCursor data))
  /\ (forall tag n,
        In n (matching tag data)
        <-> subnode n data /\ hasTag "__typename" tag n = true).
Proof.
  split; [|split; [|split]]; try (rewrite extractData_applyRule; reflexivity).
  intros tag n. apply In_matching.
Qed.

(** C2. For the four tweet timelines [extractData] collects every node
    whose [__typename] is [TimelineTweet] and projects each to
    [tweet_results.result]; for the four user timelines it collects every
    node whose [__typename] is [TimelineUser] and projects each to
    [user_results.result]. The projection of a node whose wrapper is
    missing or [null] raises a [TypeError], and so does the call. *)
Theorem extractData_timelines (data : json) :
  Forall (fun type =>
            FetcherService.extractData data type
            = if forallb (hasWrapper "tweet_results") (matching "TimelineTweet" data)
              then ret (new_CursoredData
                          (List.map (resultOf "tweet_results") (matching "TimelineTweet" data))
                          (bottomCursor data))
              else throw TypeError)
         [TWEET_SEARCH; USER_LIKES; LIST_TWEETS; USER_TWEETS]
  /\ Forall (fun type =>
               FetcherService.extractData data type
               = if forallb (hasWrapper "user_results") (matching "TimelineUser" data)
                 then ret (new_CursoredData
                             (List.map (resultOf "user_results") (matching "TimelineUser" data))
                             (bottomCursor data))
                 else throw TypeError)
            [TWEET_FAVORITERS; TWEET_RETWEETERS; USER_FOLLOWERS; USER_FOLLOWING].
Proof.
  split; repeat constructor; rewrite extractData_applyRule;
    cbn [ruleOf applyRule];
    match goal with |- context [forallb ?p ?l] => destruct (forallb p l) end;
    reflexivity.
Qed.

Example extractData_samplePage_search :
  FetcherService.extractData samplePage TWEET_SEARCH
  = ret (new_CursoredData
           [Some (JObj [("__typename", JStr "Tweet"); ("rest_id", JStr "1")]); undefined]
           (Some (JStr "b0"))).
Proof. reflexivity. Qed.

Example extractData_samplePage_details :
  FetcherService.extractData samplePage TWEET_DETAILS
  = ret (new_CursoredData
           [Some (JObj [("__typename", JStr "Tweet"); ("rest_id", JStr "1")])]
           (Some (JStr "b0"))).
Proof. reflexivity. Qed.

Example extractData_samplePage_create :
  FetcherService.extractData samplePage CREATE_TWEET
  = ret (new_CursoredData [] (Some (JStr "b0"))).
Proof. reflexivity. Qed.

(** C5. The cursor of the [CursoredData] that [extractData] returns is the
    [value] of the first node of the tree whose [cursorType] is [Bottom],
    the one no such node precedes in document order, and [undefined] when
    the tree has no such node; the call returns whenever the selection of
    the entities does. *)
Theorem extractData_cursor (data : json) (type : EResourceType) :
  (forall cd, FetcherService.extractData data type = ret cd ->
              cursor cd = bottomCursor data)
  /\ (forall required, applyRule (ruleOf type) data = ret required ->
        FetcherService.extractData data type
        = ret (new_CursoredData required (bottomCursor data)))
  /\ (forall before node after,
        nodes data = before ++ node :: after ->
        Forall (fun n => hasTag "cursorType" "Bottom" n = false) before ->
        hasTag "cursorType" "Bottom" node = true ->
        bottomCursor data = getPropOpt (Some node) "value")
  /\ ((forall n, subnode n data -> hasTag "cursorType" "Bottom" n = false) ->
      bottomCursor data = undefined).
Proof.
  split; [|split; [|split]].
  - intros cd. rewrite extractData_applyRule.
    destruct (applyRule (ruleOf type) data) as [e | required]; cbn [bind ret].
    + discriminate.
    + intros [= <-]. reflexivity.
  - intros required Hrule. rewrite extractData_applyRule, Hrule. reflexivity.
  - apply bottomCursor_first.
  - apply bottomCursor_absent.
Qed.

(** C6, as the code has it. [extractData] returns a [CursoredData] for
    every tree in which each node its rule projects carries the wrapper:
    always for the detail types and the types without a rule, and for a
    timeline type when no [TimelineTweet] (or [TimelineUser]) node lacks
    its [tweet_results] (or [user_results]). A tree with no node of the
    kind sought gives the empty entity list, a tree with no [Bottom] node
    the [undefined] cursor. A timeline node without its wrapper raises a
    [TypeError]. *)
Theorem extractData_returns_when_wrapped (data : json) (type : EResourceType) :
  (wrapped type data = true ->
   exists cd, FetcherService.extractData data type = ret cd)
  /\ (wrapped type data = false ->
      FetcherService.extractData data type = throw TypeError)
  /\ (forall r, ruleOf type = Some r -> matching (discriminator r) data = [] ->
        FetcherService.extractData data type
        = ret (new_CursoredData [] (bottomCursor data)))
  /\ (forall r, ruleOf type = Some r -> projection r = None -> wrapped type data = true)
  /\ (ruleOf type = None -> wrapped type data = true)
  /\ ((forall n, subnode n data -> hasTag "cursorType" "Bottom" n = false) ->
      forall cd, FetcherService.extractData data type = ret cd -> cursor cd = undefined).
Proof.
  split; [|split; [|split; [|split; [|split]]]].
  - rewrite extractData_applyRule. unfold wrapped.
    destruct (ruleOf type) as [[tag [wrapper|]]|]; cbn [applyRule];
      try (intros _; eexists; reflexivity).
    intros ->. eexists; reflexivity.
  - rewrite extractData_applyRule. unfold wrapped.
    destruct (ruleOf type) as [[tag [wrapper|]]|]; cbn [applyRule];
      try discriminate.
    intros ->. reflexivity.
  - intros [tag [wrapper|]] Hrule Hnone; cbn [discriminator] in Hnone;
      rewrite extractData_applyRule, Hrule; cbn [applyRule]; rewrite Hnone;
      reflexivity.
  - intros [tag proj] Hrule Hproj. cbn [projection] in Hproj. subst proj.
    unfold wrapped. rewrite Hrule. reflexivity.
  - intros Hrule. unfold wrapped. rewrite Hrule. reflexivity.
  - intros Hnone cd. rewrite extractData_applyRule.
    destruct (applyRule (ruleOf type) data) as [e | required]; cbn [bind ret].
    + discriminate.
    + intros [= <-]. cbn [cursor]. apply bottomCursor_absent, Hnone.
Qed.

(** C5 at [samplePage], which has two [Bottom] cursors: the cursor
    returned is the first. *)
Lemma extractData_cursor_witness :
  exists cd, FetcherService.extractData samplePage TWEET_DETAILS = ret cd
             /\ cursor cd = Some (JStr "b0").
Proof.
  destruct (extractData_cursor samplePage TWEET_DETAILS) as [Hcursor [Hreturns _]].
  eexists. split.
  - apply Hreturns. reflexivity.
  - rewrite (Hcursor _ (Hreturns _ eq_refl)). reflexivity.
Defined.

(** C6, the input that refutes it as stated: a [TimelineTweet] node
    without [tweet_results] under a tweet timeline type. Reading [result]
    from the missing wrapper raises a [TypeError]. *)
Lemma extractData_throws_on_bare_timeline_node :
  FetcherService.extractData bareTimelinePage TWEET_SEARCH = throw TypeError
  /\ ~ exists cd, FetcherService.extractData bareTimelinePage TWEET_SEARCH = ret cd.
Proof.
  split; [reflexivity|]. intros [cd H]. discriminate H.
Qed.

(** C6 at [samplePage], whose timeline nodes carry their wrapper, one of
    them empty. *)
Lemma extractData_returns_when_wrapped_witness :
  exists cd, FetcherService.extractData samplePage USER_LIKES = ret cd.
Proof.
  destruct (extractData_returns_when_wrapped samplePage USER_LIKES) as [Hreturns _].
  apply Hreturns. reflexivity.
Defined.

Lemma EResourceType_eq_dec (a b : EResourceType) : {a = b} + {a <> b}.
Proof. decide equality. apply string_dec. Defined.

Lemma extractionTypes_NoDup : NoDup extractionTypes.
Proof.
  unfold extractionTypes.
  repeat (constructor; [simpl; intuition discriminate|]). constructor.
Qed.

(** On [sampleKinds] every resource type with a branch returns an entity. *)
Lemma extractionTypes_select (type : EResourceType) :
  In type extractionTypes ->
  exists cd, FetcherService.extractData sampleKinds type = ret cd /\ entities cd <> [].
Proof.
  unfold extractionTypes. simpl.
  intros H; repeat (destruct H as [<- | H]; [eexists; split; [reflexivity|discriminate]|]).
  contradiction.
Qed.

(** C8, what refutes it as stated: the resource types with an extraction
    branch are eleven, so whichever ten are set apart, a resource type
    outside them returns a non-empty entity list on some tree. *)
Lemma extraction_branches_exceed_ten :
  ~ exists ten : list EResourceType,
      length ten = 10
      /\ forall type, ~ In type ten ->
           forall data cd, FetcherService.extractData data type = ret cd ->
                           entities cd = [].
Proof.
  intros [ten [Hlen Hempty]].
  assert (Hincl : incl extractionTypes ten).
  { intros type Hin.
    destruct (in_dec EResourceType_eq_dec type ten) as [Hten | Hout]; [exact Hten|].
    destruct (extractionTypes_select type Hin) as [cd [Hcd Hne]].
    exfalso. apply Hne. exact (Hempty type Hout sampleKinds cd Hcd). }
  pose proof (NoDup_incl_length extractionTypes_NoDup Hincl) as Hle.
  rewrite Hlen in Hle. simpl in Hle. lia.
Qed.

(** C8, as the code has it. The resource type alone selects the rule:
    [extractData] applies [ruleOf type], whatever the tree, and then reads
    the cursor. The resource types with a rule are the eleven of the four
    extraction branches; for every resource type outside them no rule
    applies and the [CursoredData] returned has the empty entity list and
    the cursor. *)
Theorem extractData_rule_by_type :
  (forall data type,
      FetcherService.extractData data type
      = let! required := applyRule (ruleOf type) data in
        ret (new_CursoredData required (bottomCursor data)))
  /\ (forall type, ~ In type extractionTypes ->
        ruleOf type = None
        /\ forall data, FetcherService.extractData data type
                        = ret (new_CursoredData [] (bottomCursor data)))
  /\ (forall type, In type extractionTypes -> ruleOf type <> None)
  /\ NoDup extractionTypes
  /\ length extractionTypes = 11.
Proof.
  split; [|split; [|split; [|split]]].
  - exact extractData_applyRule.
  - intros type Hout. pose proof (ruleOf_outside type Hout) as Hrule.
    split; [exact Hrule|]. intros data.
    rewrite extractData_applyRule, Hrule. reflexivity.
  - unfold extractionTypes. simpl.
    intros type H; repeat (destruct H as [<- | H]; [discriminate|]). contradiction.
  - exact extractionTypes_NoDup.
  - reflexivity.
Qed.

(** C8 at a resource type outside the extraction branches. *)
Lemma extractData_rule_by_type_witness :
  FetcherService.extractData samplePage (OTHER_RESOURCE "/i/api/1.1/dm/new2.json")
  = ret (new_CursoredData [] (Some (JStr "b0"))).
Proof.
  destruct extractData_rule_by_type as [_ [Houtside _]].
  destruct (Houtside (OTHER_RESOURCE "/i/api/1.1/dm/new2.json")) as [_ Hempty].
  - unfold extractionTypes. simpl. intuition discriminate.
  - rewrite Hempty. reflexivity.
Defined.

(* ===================================================================== *)
(** * Lemmas on the enumerations *)
(* ===================================================================== *)

(** The digits of an integer are never the empty numeral. *)
Lemma to_int_proper (n : Z) :
  Z.to_int n <> Decimal.Pos Decimal.Nil /\ Z.to_int n <> Decimal.Neg Decimal.Nil.
Proof.
  destruct n as [| p | p]; simpl; split; try discriminate;
    intros [= H]; exact (DecimalPos.Unsigned.to_uint_nonnil p H).
Qed.

(** Two integers with the same digits are the same. *)
Lemma template_of_number_inj (n m : Z) :
  template_of_number n = template_of_number m -> n = m.
Proof.
  unfold template_of_number. intros H.
  apply (f_equal NilZero.int_of_string) in H.
  destruct (to_int_proper n) as [Hn1 Hn2], (to_int_proper m) as [Hm1 Hm2].
  rewrite !NilZero.isi in H by assumption.
  injection H as H. apply DecimalZ.to_int_inj, H.
Qed.

Lemma enum_in_keys {V} (key : string) (table : enum_object V) :
  ~ In key (List.map fst table) -> enum_in key table = false.
Proof.
  unfold enum_in. induction table as [|[k v] table IH]; simpl; [reflexivity|].
  intros Hout. destruct (String.eqb_spec k key) as [-> | _].
  - exfalso. apply Hout. left. reflexivity.
  - apply IH. intros Hin. apply Hout. right. exact Hin.
Qed.

(** An enumeration is finite: some status other than 200 is not a key of
    it. *)
Lemma unmapped_status_exists {V} (table : enum_object V) :
  exists n : Z, n <> 200%Z /\ enum_in (template_of_number n) table = false.
Proof.
  set (keys := List.map fst table).
  set (candidates := List.map (fun i => template_of_number (201 + Z.of_nat i))
                              (seq 0 (S (length table)))).
  assert (Hnodup : NoDup candidates).
  { apply Injective_map_NoDup; [|apply seq_NoDup].
    intros i j Hij. apply template_of_number_inj in Hij. lia. }
  destruct (Forall_Exists_dec (fun s => In s keys)
              (fun s => in_dec string_dec s keys) candidates) as [Hall | Hsome].
  - exfalso.
    assert (Hincl : incl candidates keys) by exact (proj1 (Forall_forall _ _) Hall).
    pose proof (NoDup_incl_length Hnodup Hincl) as Hle.
    unfold candidates, keys in Hle. rewrite !length_map, length_seq in Hle. lia.
  - apply Exists_exists in Hsome as [s [Hin Hout]].
    apply in_map_iff in Hin as [i [<- _]].
    exists (201 + Z.of_nat i)%Z. split; [lia|]. apply enum_in_keys, Hout.
Qed.

(* ===================================================================== *)
(** * Theorems on the request pipeline *)
(* ===================================================================== *)

Section FetcherServiceFacts.

Variable EHttpStatus EErrorCodes EApiErrors : enum_object string.
Variable AuthCredential : Type.
Variable toHeader : AuthCredential -> json.
Variable Args : Type.
Variable new_Request : EResourceType -> Args -> completion FetcherService.Request.

Local Abbreviation handleHttpError := (FetcherService.handleHttpError EHttpStatus).
Local Abbreviation handleApiError := (FetcherService.handleApiError EErrorCodes EApiErrors).
Local Abbreviation apiErrorMessage := (FetcherService.apiErrorMessage EErrorCodes EApiErrors).
Local Abbreviation request :=
  (FetcherService.request EHttpStatus EErrorCodes EApiErrors toHeader).
Local Abbreviation post :=
  (FetcherService.post EHttpStatus EErrorCodes EApiErrors toHeader new_Request).

(** The HTTP middleware throws on a status that is not 200 and is a key
    of [EHttpStatus], with the entry as the message. *)
Lemma handleHttpError_mapped (res : AxiosResponse) (message : string) :
  status res <> 200%Z ->
  enum_get (template_of_number (status res)) EHttpStatus = Some message ->
  handleHttpError res = throw (Error message).
Proof.
  intros Hstatus Hget. unfold FetcherService.handleHttpError, enum_in.
  rewrite Hget. apply Z.eqb_neq in Hstatus. rewrite Hstatus. reflexivity.
Qed.

(** It lets every other response through. *)
Lemma handleHttpError_pass (res : AxiosResponse) :
  status res = 200%Z \/ enum_get (template_of_number (status res)) EHttpStatus = None ->
  handleHttpError res = ret res.
Proof.
  unfold FetcherService.handleHttpError, enum_in. intros [-> | ->].
  - reflexivity.
  - rewrite andb_false_r. reflexivity.
Qed.

Lemma handleApiError_pass (res : AxiosResponse) :
  errors (data res) = None \/ errors (data res) = Some [] ->
  handleApiError res = ret res.
Proof.
  unfold FetcherService.handleApiError. intros [-> | ->]; reflexivity.
Qed.

(** C4. The API middleware throws if and only if the body carries a
    non-empty [errors] array. The error it throws has the message that
    the tables give for the code of the first element, whatever follows
    it in the array: the entry of [EApiErrors] under the key that
    [EErrorCodes] has for the code. Otherwise the response is returned
    unchanged. *)
Theorem handleApiError_first_error (res : AxiosResponse) :
  ((exists e, handleApiError res = throw e)
   <-> (exists first rest, errors (data res) = Some (first :: rest)))
  /\ (forall first rest, errors (data res) = Some (first :: rest) ->
        handleApiError res = throw (new_Error (apiErrorMessage (code first))))
  /\ (forall first rest key message,
        errors (data res) = Some (first :: rest) ->
        findKeyByValue EErrorCodes (template_of_number (code first)) = Some key ->
        enum_get key EApiErrors = Some message ->
        handleApiError res = throw (Error message))
  /\ ((forall first rest, errors (data res) <> Some (first :: rest)) ->
      handleApiError res = ret res).
Proof.
  unfold FetcherService.handleApiError, FetcherService.apiErrorMessage.
  destruct (errors (data res)) as [[|first rest]|]; (split; [split|split; [|split]]).
  all: try (intros [e H]; discriminate H).
  all: try (intros [f [r H]]; discriminate H).
  all: try (intros f r H; discriminate H).
  all: try (intros f r k m H; discriminate H).
  all: try (intros _; reflexivity).
  - intros _. exists first, rest. reflexivity.
  - intros _. eexists. reflexivity.
  - intros f r [= <- <-]. reflexivity.
  - intros f r key message [= <- <-] Hkey Hmessage.
    rewrite Hkey. cbn [property_key]. rewrite Hmessage. reflexivity.
  - intros H. exfalso. apply (H first rest). reflexivity.
Qed.

(** [post] is the request pipeline with its value replaced by [true]. *)
Lemma post_request (this : FetcherService.FetcherService AuthCredential)
      (resourceType : EResourceType) (args : Args) :
  post this resourceType args
  ≅ ITree.map (fun c => bind c (fun _ => ret true))
      (await (Ret (new_Request resourceType args)) (request this)).
Proof.
  unfold FetcherService.post, await, ITree.map.
  rewrite !bind_ret_l.
  destruct (new_Request resourceType args) as [e | request_].
  - rewrite bind_ret_l. reflexivity.
  - apply eqit_bind; [reflexivity|]. intros [e | res]; reflexivity.
Qed.

(** C9. [post] never returns [false]: every completion of its promise is
    the value [true] or a rejection, and the promise is that of the
    request pipeline, with [true] in place of the response when the
    pipeline completes and with the thrown error unchanged when it does
    not. *)
Theorem post_true_or_throws (this : FetcherService.FetcherService AuthCredential)
        (resourceType : EResourceType) (args : Args) :
  (forall c, Leaf c (post this resourceType args) ->
             c = ret true \/ exists e, c = throw e)
  /\ post this resourceType args
     ≅ ITree.map (fun c => bind c (fun _ => ret true))
         (await (Ret (new_Request resourceType args)) (request this)).
Proof.
  split; [|apply post_request].
  intros c Hleaf. rewrite post_request in Hleaf.
  unfold ITree.map in Hleaf.
  apply Leaf_bind_inv in Hleaf as [c' [_ Hret]].
  apply Leaf_Ret_inv in Hret. subst c.
  destruct c' as [e | res]; [right; exists e|left]; reflexivity.
Qed.

Variable W : Type.
Variable h : FetcherService.netE ~> Monads.stateT W (itree void1).

(** Running [request] against an environment [h] that settles the axios
    call: the two middlewares run on the completion, in order. *)
Lemma request_run this config w w' (c : completion AxiosResponse) :
  h _ (FetcherService.Axios (FetcherService.axiosRequest toHeader this config)) w
  ≈ Ret (w', c) ->
  interp_state h (request this config) w
  ≈ Ret (w', bind (bind c handleHttpError) handleApiError).
Proof.
  intros Hax. unfold FetcherService.request, then_.
  rewrite !interp_state_bind, interp_state_trigger, Hax, !bind_ret_l.
  cbn. rewrite interp_state_ret, bind_ret_l. cbn. rewrite interp_state_ret.
  reflexivity.
Qed.

(** C3, as the code has it. When axios hands a response to the pipeline:
    a status that is not 200 and is a key of [EHttpStatus] makes the
    pipeline throw the error whose message is the entry of that status; a
    status that is not a key of [EHttpStatus] passes the HTTP check, and
    the response goes on to the API check; a response with status 200 and
    no API errors is returned unchanged. *)
Theorem request_http_status this config w w' (res : AxiosResponse) :
  h _ (FetcherService.Axios (FetcherService.axiosRequest toHeader this config)) w
  ≈ Ret (w', ret res) ->
  (forall message,
      status res <> 200%Z ->
      enum_get (template_of_number (status res)) EHttpStatus = Some message ->
      interp_state h (request this config) w ≈ Ret (w', throw (Error message)))
  /\ (status res = 200%Z \/ enum_get (template_of_number (status res)) EHttpStatus = None ->
      interp_state h (request this config) w ≈ Ret (w', handleApiError res))
  /\ (status res = 200%Z ->
      errors (data res) = None \/ errors (data res) = Some [] ->
      interp_state h (request this config) w ≈ Ret (w', ret res)).
Proof.
  intros Hax. pose proof (request_run this config w w' (ret res) Hax) as Hrun.
  cbn [bind ret] in Hrun. split; [|split].
  - intros message Hstatus Hget. rewrite Hrun.
    rewrite (handleHttpError_mapped res message Hstatus Hget). reflexivity.
  - intros Hpass. rewrite Hrun.
    rewrite (handleHttpError_pass res Hpass). reflexivity.
  - intros Hstatus Herrors. rewrite Hrun.
    rewrite (handleHttpError_pass res (or_introl Hstatus)). cbn [bind ret].
    rewrite (handleApiError_pass res Herrors). reflexivity.
Qed.

(** [fetch] hands the body of the response to [extractData] together with
    the resource type it built the request from. *)
Lemma fetch_run this resourceType args request_ w w' (res : AxiosResponse) :
  new_Request resourceType args = ret request_ ->
  h _ (FetcherService.Axios (FetcherService.axiosRequest toHeader this request_)) w
  ≈ Ret (w', ret res) ->
  handleHttpError res = ret res ->
  handleApiError res = ret res ->
  interp_state h
    (FetcherService.fetch EHttpStatus EErrorCodes EApiErrors toHeader new_Request
       this resourceType args) w
  ≈ Ret (w', FetcherService.extractData (tree (data res)) resourceType).
Proof.
  intros Hnew Hax Hhttp Hapi.
  pose proof (request_run this request_ w w' (ret res) Hax) as Hrun.
  cbn [bind ret] in Hrun. rewrite Hhttp in Hrun. cbn [bind ret] in Hrun.
  rewrite Hapi in Hrun.
  unfold FetcherService.fetch, await at 1. rewrite Hnew, bind_ret_l.
  cbn [ret]. unfold await, then_.
  rewrite !interp_state_bind, Hrun, !bind_ret_l. cbn.
  rewrite interp_state_ret, bind_ret_l. cbn. rewrite interp_state_ret.
  reflexivity.
Qed.

End FetcherServiceFacts.

(* ===================================================================== *)
(** * Theorems on [getTweetById] *)
(* ===================================================================== *)

Section TweetServiceFacts.

Variable Tweet Response : Type.
Variable tweetDetailsUrl : string -> string.
Variable extractTweet : json -> string -> completion TweetService.Extracted.
Variable toTweet : jsval -> completion Tweet.

Local Abbreviation getTweetById :=
  (@TweetService.getTweetById Tweet Response tweetDetailsUrl extractTweet toTweet).

Variable W : Type.
Variable h : TweetService.serviceE Tweet Response ~> Monads.stateT W (itree void1).

(** One awaited operation of the base class, run against [h]. *)
Lemma await_trigger_run {A B} (e : TweetService.serviceE Tweet Response (completion A))
      (k : A -> Promise (TweetService.serviceE Tweet Response) B) w w' (c : completion A) :
  h _ e w ≈ Ret (w', c) ->
  interp_state h (await (ITree.trigger e) k) w
  ≈ match c with
    | inl err => Ret (w', inl err)
    | inr a => interp_state h (k a) w'
    end.
Proof.
  intros He. unfold await.
  rewrite interp_state_bind, interp_state_trigger, He, bind_ret_l. cbn.
  destruct c as [err | a]; [rewrite interp_state_ret|]; reflexivity.
Qed.

(** One step of a run: the awaited operation settles as [H] says. *)
Ltac run_await H := rewrite (await_trigger_run _ _ _ _ _ H); cbn.

(** C10. [getTweetById] reads the cache first, and when the cache holds a
    tweet for the id the method is over: the promise is fulfilled with
    that tweet as it is. Against every implementation of the cache and of
    the network, the state of the world is then the one the cache read
    left: nothing is fetched, extracted or cached. Only when the cache
    read finds nothing is the tweet fetched, its body read and extracted,
    the extraction cached and its first raw tweet deserialized, in this
    order. *)
Theorem getTweetById_cache (tweetId : string) (w : W) :
  (exists miss,
      getTweetById tweetId
      ≅ Vis (TweetService.ReadData tweetId)
          (fun c => match c with
                    | inl e => Ret (inl e)
                    | inr (Some cached) => Ret (ret cached)
                    | inr None => miss
                    end))
  /\ (forall w' cached,
        h _ (TweetService.ReadData tweetId) w ≈ Ret (w', ret (Some cached)) ->
        interp_state h (getTweetById tweetId) w ≈ Ret (w', ret cached))
  /\ (forall w1 w2 w3 w4 res body data,
        h _ (TweetService.ReadData tweetId) w ≈ Ret (w1, ret None) ->
        h _ (TweetService.FetchData (tweetDetailsUrl tweetId) undefined undefined false) w1
        ≈ Ret (w2, ret res) ->
        h _ (TweetService.Json res) w2 ≈ Ret (w3, ret body) ->
        extractTweet body tweetId = ret data ->
        h _ (TweetService.CacheData data) w3 ≈ Ret (w4, ret tt) ->
        interp_state h (getTweetById tweetId) w
        ≈ Ret (w4, toTweet (hd_error (TweetService.required data)))).
Proof.
  split; [|split].
  - unfold TweetService.getTweetById, await. eexists.
    rewrite bind_trigger. apply eqit_Vis.
    intros [e | [cached |]]; reflexivity.
  - intros w' cached Hread. unfold TweetService.getTweetById.
    run_await Hread. rewrite interp_state_ret. reflexivity.
  - intros w1 w2 w3 w4 res body data Hread Hfetch Hjson Hextract Hcache.
    unfold TweetService.getTweetById.
    run_await Hread. run_await Hfetch. run_await Hjson.
    rewrite Hextract. unfold await at 1. rewrite bind_ret_l. cbn.
    run_await Hcache. rewrite interp_state_ret. reflexivity.
Qed.

End TweetServiceFacts.

(* ===================================================================== *)
(** * The theorems at sample inputs *)
(* ===================================================================== *)

Example handleHttpError_sample_404 :
  FetcherService.handleHttpError sampleHttpStatus (responseOf 404 None)
  = throw (Error "NOT_FOUND").
Proof. reflexivity. Qed.

Example handleHttpError_sample_204 :
  FetcherService.handleHttpError sampleHttpStatus (responseOf 204 None)
  = ret (responseOf 204 None).
Proof. reflexivity. Qed.

Example handleApiError_sample :
  FetcherService.handleApiError sampleErrorCodes sampleApiErrors
    (responseOf 200 (Some [{| code := 88 |}; {| code := 32 |}]))
  = throw (Error "Too many requests").
Proof. reflexivity. Qed.

Example handleApiError_sample_unknown_code :
  FetcherService.handleApiError sampleErrorCodes sampleApiErrors
    (responseOf 200 (Some [{| code := 7 |}]))
  = throw (Error "").
Proof. reflexivity. Qed.

(** C4 at a body with two errors: the message is that of the first. *)
Lemma handleApiError_first_error_witness :
  FetcherService.handleApiError sampleErrorCodes sampleApiErrors
    (responseOf 200 (Some [{| code := 32 |}; {| code := 88 |}]))
  = throw (Error "Failed to authenticate").
Proof.
  destruct (handleApiError_first_error sampleErrorCodes sampleApiErrors
              (responseOf 200 (Some [{| code := 32 |}; {| code := 88 |}])))
    as [_ [_ [Hfirst _]]].
  apply (Hfirst {| code := 32 |} [{| code := 88 |}] "COULD_NOT_AUTHENTICATE");
    reflexivity.
Defined.

(** C3, what refutes it as stated: whatever the entries of [EHttpStatus],
    some response with a status other than 200 goes through the request
    pipeline without an error being thrown. *)
Lemma request_passes_unmapped_status :
  ~ exists EHttpStatus : enum_object string,
      forall res : AxiosResponse,
        status res <> 200%Z ->
        exists e,
          interp_state (answering (ret res))
            (FetcherService.request EHttpStatus sampleErrorCodes sampleApiErrors
               sampleHeader sampleService sampleRequest) 0
          ≈ Ret (1, throw e).
Proof.
  intros [EHttpStatus Hthrows].
  destruct (unmapped_status_exists EHttpStatus) as [n [Hn Hkey]].
  destruct (Hthrows (responseOf n None) Hn) as [e He].
  rewrite (request_run EHttpStatus sampleErrorCodes sampleApiErrors _ sampleHeader
             _ (answering (ret (responseOf n None))) sampleService sampleRequest
             0 1 (ret (responseOf n None))) in He by reflexivity.
  apply eqit_inv_Ret in He. injection He as He. revert He.
  cbn [bind ret]. unfold FetcherService.handleHttpError.
  cbn [status responseOf]. rewrite Hkey, andb_false_r. discriminate.
Qed.

(** C3 at a response with status 404, a key of the sample table. *)
Lemma request_http_status_witness :
  interp_state (answering (ret (responseOf 404 None)))
    (FetcherService.request sampleHttpStatus sampleErrorCodes sampleApiErrors
       sampleHeader sampleService sampleRequest) 0
  ≈ Ret (1, throw (Error "NOT_FOUND")).
Proof.
  destruct (request_http_status sampleHttpStatus sampleErrorCodes sampleApiErrors _
              sampleHeader _ (answering (ret (responseOf 404 None)))
              sampleService sampleRequest 0 1 (responseOf 404 None))
    as [Hmapped _].
  - reflexivity.
  - apply Hmapped.
    + cbn. discriminate.
    + reflexivity.
Defined.

(** C9 at a run of [post] in which axios answers with a plain 200. *)
Lemma post_true_or_throws_witness :
  exists c,
    Leaf c (FetcherService.post sampleHttpStatus sampleErrorCodes sampleApiErrors
              sampleHeader sampleNewRequest sampleService CREATE_TWEET tt)
    /\ (c = ret true \/ exists e, c = throw e).
Proof.
  exists (ret true).
  assert (Hleaf : Leaf (ret true)
            (FetcherService.post sampleHttpStatus sampleErrorCodes sampleApiErrors
               sampleHeader sampleNewRequest sampleService CREATE_TWEET tt)).
  { unfold FetcherService.post, await, sampleNewRequest.
    eapply Leaf_bind; [apply Leaf_Ret|]. cbn.
    eapply Leaf_bind with (b := ret (responseOf 200 None)); [|apply Leaf_Ret].
    unfold FetcherService.request, then_.
    eapply Leaf_bind with (b := ret (responseOf 200 None)); [|apply Leaf_Ret].
    eapply Leaf_bind with (b := ret (responseOf 200 None)); [|apply Leaf_Ret].
    unfold ITree.trigger. eapply Leaf_Vis. apply Leaf_Ret. }
  split; [exact Hleaf|].
  exact (proj1 (post_true_or_throws sampleHttpStatus sampleErrorCodes sampleApiErrors _
                  sampleHeader _ sampleNewRequest sampleService CREATE_TWEET tt)
               _ Hleaf).
Defined.

(** C10 against the logging environment: a hit performs the cache read
    alone, a miss the four operations in order. *)
Lemma getTweetById_cache_witness :
  interp_state logging
    (TweetService.getTweetById sampleTweetDetailsUrl sampleExtractTweet sampleToTweet "42") []
  ≈ Ret (["readData"], ret "cached 42")
  /\ interp_state logging
       (TweetService.getTweetById sampleTweetDetailsUrl sampleExtractTweet sampleToTweet "1") []
     ≈ Ret (["readData"; "fetchData"; "json"; "cacheData"], ret "1").
Proof.
  split.
  - destruct (getTweetById_cache string json sampleTweetDetailsUrl sampleExtractTweet
                sampleToTweet _ logging "42" []) as [_ [Hhit _]].
    apply Hhit. reflexivity.
  - destruct (getTweetById_cache string json sampleTweetDetailsUrl sampleExtractTweet
                sampleToTweet _ logging "1" []) as [_ [_ Hmiss]].
    apply (Hmiss ["readData"] ["readData"; "fetchData"]
                 ["readData"; "fetchData"; "json"]
                 ["readData"; "fetchData"; "json"; "cacheData"]
                 samplePage samplePage
                 {| TweetService.required := findByFilter samplePage "__typename" "Tweet";
                    TweetService.cursor := "" |});
      reflexivity.
Defined.

(* ===================================================================== *)
(** * Lemmas on strings *)
(* ===================================================================== *)

Lemma split_nonempty (sep : ascii) (s : string) : split sep s <> [].
Proof.
  destruct s as [|c rest]; simpl; [discriminate|].
  destruct (Ascii.eqb c sep); [discriminate|].
  destruct (split sep rest); discriminate.
Qed.

Lemma concat_cons (sep piece : string) (pieces : list string) :
  pieces <> [] ->
  String.concat sep (piece :: pieces)
  = (piece ++ sep ++ String.concat sep pieces)%string.
Proof. destruct pieces; [contradiction | reflexivity]. Qed.

(** Joining the pieces with the separator gives the string back. *)
Lemma concat_split (sep : ascii) (s : string) :
  String.concat (String sep EmptyString) (split sep s) = s.
Proof.
  induction s as [|c rest IH]; [reflexivity|].
  pose proof (split_nonempty sep rest) as Hne.
  cbn [split]. destruct (Ascii.eqb_spec c sep) as [-> | Hc].
  - rewrite concat_cons by exact Hne. rewrite <- IH at 2. reflexivity.
  - destruct (split sep rest) as [|piece pieces] eqn:Hsplit; [contradiction|].
    destruct pieces as [|piece' pieces'].
    + cbn [String.concat] in *. rewrite IH. reflexivity.
    + rewrite concat_cons in * by discriminate.
      rewrite <- IH. reflexivity.
Qed.

(** No piece holds the separator. *)
Lemma split_pieces (sep : ascii) (s : string) :
  Forall (fun piece => occurrences sep piece = 0) (split sep s).
Proof.
  induction s as [|c rest IH]; cbn [split].
  - repeat constructor.
  - destruct (Ascii.eqb c sep) eqn:Hc.
    + constructor; [reflexivity | exact IH].
    + destruct (split sep rest) as [|piece pieces].
      * constructor; [|constructor]. cbn [occurrences]. rewrite Hc. reflexivity.
      * inversion IH as [|? ? Hpiece Hpieces]; subst.
        constructor; [|exact Hpieces].
        cbn [occurrences]. rewrite Hc, Hpiece. reflexivity.
Qed.

(** There is one piece more than there are separators. *)
Lemma length_split (sep : ascii) (s : string) :
  length (split sep s) = S (occurrences sep s).
Proof.
  induction s as [|c rest IH]; cbn [split occurrences]; [reflexivity|].
  destruct (Ascii.eqb c sep).
  - cbn [length]. rewrite IH. reflexivity.
  - pose proof (split_nonempty sep rest) as Hne.
    destruct (split sep rest) as [|piece pieces]; [contradiction|].
    cbn [length] in *. rewrite IH. reflexivity.
Qed.

(** Splitting undoes joining, for pieces that do not hold the separator. *)
Lemma split_concat (sep : ascii) (pieces : list string) :
  pieces <> [] ->
  Forall (fun piece => occurrences sep piece = 0) pieces ->
  split sep (String.concat (String sep EmptyString) pieces) = pieces.
Proof.
  intros Hne Hpieces. induction Hpieces as [|piece rest Hpiece Hrest IH];
    [contradiction|]. clear Hne.
  destruct rest as [|piece' rest'].
  - cbn [String.concat]. clear IH Hrest.
    induction piece as [|c piece IHp]; [reflexivity|].
    cbn [occurrences] in Hpiece. cbn [split].
    destruct (Ascii.eqb c sep); [discriminate|].
    rewrite IHp by exact Hpiece. reflexivity.
  - specialize (IH ltac:(discriminate)).
    rewrite concat_cons by discriminate.
    set (tl := String.concat (String sep EmptyString) (piece' :: rest')) in *.
    change (String sep EmptyString ++ tl)%string with (String sep tl).
    induction piece as [|c piece IHp].
    + cbn [String.append split]. rewrite Ascii.eqb_refl, IH. reflexivity.
    + cbn [occurrences] in Hpiece. cbn [String.append split].
      destruct (Ascii.eqb c sep); [discriminate|].
      rewrite IHp by exact Hpiece. reflexivity.
Qed.









Lemma conversation_inj (myId otherId myId' otherId' : string) :
  occurrences "-" otherId = 0 ->
  occurrences "-" otherId' = 0 ->
  FetcherServiceCalls.conversation myId otherId
  = FetcherServiceCalls.conversation myId' otherId' ->
  myId = myId' /\ otherId = otherId'.
Proof.
  unfold FetcherServiceCalls.conversation.
  revert otherId'. induction otherId as [|c o IH]; intros [|c' o'];
    cbn [occurrences String.append]; intros Ho Ho' Heq.
  - injection Heq as Heq. split; [exact Heq | reflexivity].
  - injection Heq as Hc _. subst c'. simpl in Ho'. discriminate.
  - injection Heq as Hc _. subst c. simpl in Ho. discriminate.
  - injection Heq as Hc Heq. subst c'.
    destruct (Ascii.eqb c "-"); [discriminate|].
    destruct (IH o' Ho Ho' Heq) as [-> ->]. split; reflexivity.
Qed.

Lemma field_setField_same (key : string) (value : json) (fields : list (string * json)) :
  field key (setField key value fields) = Some value.
Proof.
  induction fields as [|[k v] rest IH]; cbn [setField field].
  - rewrite String.eqb_refl. reflexivity.
  - destruct (String.eqb k key) eqn:Hk; cbn [field]; rewrite Hk; [reflexivity | exact IH].
Qed.

Lemma field_setField_other (key other : string) (value : json)
      (fields : list (string * json)) :
  other <> key ->
  field other (setField key value fields) = field other fields.
Proof.
  intros Hother. induction fields as [|[k v] rest IH]; cbn [setField field].
  - destruct (String.eqb_spec key other) as [-> | _]; [contradiction | reflexivity].
  - destruct (String.eqb_spec k key) as [-> | Hk]; cbn [field].
    + destruct (String.eqb_spec key other) as [-> | _]; [contradiction | reflexivity].
    + rewrite IH. reflexivity.
Qed.

(** Setting a field adds a key only when the key was not there. *)
Lemma keys_setField (key : string) (value : json) (fields : list (string * json)) :
  List.map fst (setField key value fields)
  = if existsb (String.eqb key) (List.map fst fields)
    then List.map fst fields
    else List.map fst fields ++ [key].
Proof.
  induction fields as [|[k v] rest IH]; [reflexivity|].
  cbn [setField List.map fst existsb]. rewrite (String.eqb_sym key k).
  destruct (String.eqb_spec k key) as [-> | Hk]; cbn [List.map fst orb].
  - reflexivity.
  - rewrite IH. destruct (existsb (String.eqb key) (List.map fst rest)); reflexivity.
Qed.

(** [mapM] returns a list when every element does, in the same order. *)
Lemma mapM_ret {A B} (f : A -> completion B) (l : list A) (bs : list B) :
  mapM f l = ret bs <-> Forall2 (fun a b => f a = ret b) l bs.
Proof.
  revert bs. induction l as [|a l IH]; intros bs; cbn [mapM].
  - split.
    + intros [= <-]. constructor.
    + intros H. inversion H. reflexivity.
  - destruct (f a) as [e | b] eqn:Hfa; cbv [bind ret].
    + split; [discriminate|]. intros H. inversion H; subst.
      cbv [ret] in *. congruence.
    + destruct (mapM f l) as [e | bs'] eqn:Hl.
      * split; [discriminate|]. intros H. inversion H as [|? b' ? bs'' Hb Hbs]; subst.
        apply IH in Hbs. discriminate Hbs.
      * split.
        -- intros [= <-]. constructor; [exact Hfa|]. apply IH. reflexivity.
        -- intros H. inversion H as [|? b' ? bs'' Hb Hbs]; subst.
           apply IH in Hbs. cbv [ret] in *. congruence.
Qed.

(** [mapM] throws what its first failing element throws. *)
Lemma mapM_throw {A B} (f : A -> completion B) (l : list A) (e : exn) :
  mapM f l = throw e
  <-> exists before a after,
        l = before ++ a :: after
        /\ Forall (fun x => exists b, f x = ret b) before
        /\ f a = throw e.
Proof.
  induction l as [|a l IH]; cbn [mapM].
  - split; [discriminate|]. intros [[|x before] [a [after [Hl _]]]]; discriminate Hl.
  - destruct (f a) as [e' | b] eqn:Hfa; cbv [bind ret throw].
    + split.
      * intros [= <-]. exists [], a, l. repeat split; [constructor | exact Hfa].
      * intros [[|x before] [a' [after [Hl [Hbefore Ha']]]]].
        -- injection Hl as <- _. cbv [throw] in Ha'. congruence.
        -- injection Hl as <- _. inversion Hbefore as [|? ? [b Hb] _]; subst.
           cbv [ret] in Hb. congruence.
    + destruct (mapM f l) as [e' | bs] eqn:Hl.
      * split.
        -- intros [= <-]. destruct (proj1 IH eq_refl) as [before [a' [after [-> [Hb Ha']]]]].
           exists (a :: before), a', after. repeat split; [|exact Ha'].
           constructor; [exists b; exact Hfa | exact Hb].
        -- intros [[|x before] [a' [after [Heq [Hbefore Ha']]]]].
           ++ injection Heq as <- _. cbv [throw] in Ha'. congruence.
           ++ injection Heq as <- ->. inversion Hbefore; subst.
              assert (Hthrow : @inl exn (list B) e' = throw e)
                by (apply IH; exists before, a', after; repeat split; assumption).
              exact Hthrow.
      * split; [discriminate|].
        intros [[|x before] [a' [after [Heq [Hbefore Ha']]]]].
        -- injection Heq as <- _. cbv [throw] in Ha'. congruence.
        -- injection Heq as <- ->. inversion Hbefore; subst.
           assert (Hthrow : @inr exn (list B) bs = throw e)
             by (apply IH; exists before, a', after; repeat split; assumption).
           discriminate Hthrow.
Qed.

(** One awaited operation, run against an environment [h] in which it
    settles to [c]. *)
Lemma await_run {E : Type -> Type} {W A B : Type}
      (h : E ~> Monads.stateT W (itree void1))
      (e : E (completion A)) (k : A -> Promise E B) (w w' : W) (c : completion A) :
  h _ e w ≈ Ret (w', c) ->
  interp_state h (await (ITree.trigger e) k) w
  ≈ match c with
    | inl err => Ret (w', inl err)
    | inr a => interp_state h (k a) w'
    end.
Proof.
  intros He. unfold await.
  rewrite interp_state_bind, interp_state_trigger, He, bind_ret_l. cbn.
  destruct c as [err | a]; [rewrite interp_state_ret|]; reflexivity.
Qed.

(** An awaited value that is already there. *)
Lemma await_now {E : Type -> Type} {W A B : Type}
      (h : E ~> Monads.stateT W (itree void1))
      (c : completion A) (k : A -> Promise E B) (w : W) :
  interp_state h (await (Ret c) k) w
  ≈ match c with
    | inl err => Ret (w, inl err)
    | inr a => interp_state h (k a) w
    end.
Proof.
  unfold await. rewrite bind_ret_l.
  destruct c as [err | a]; [rewrite interp_state_ret|]; reflexivity.
Qed.

(** The call to axios followed by the two middlewares, run against [h]. *)
Lemma pipeline_run {E : Type -> Type} {W : Type}
      (h : E ~> Monads.stateT W (itree void1))
      (e : E (completion AxiosResponse))
      (f g : AxiosResponse -> completion AxiosResponse)
      (w w' : W) (c : completion AxiosResponse) :
  h _ e w ≈ Ret (w', c) ->
  interp_state h (then_ (then_ (ITree.trigger e) f) g) w
  ≈ Ret (w', bind (bind c f) g).
Proof.
  intros He. unfold then_.
  rewrite !interp_state_bind, interp_state_trigger, He, !bind_ret_l.
  cbn. rewrite interp_state_ret, bind_ret_l. cbn. rewrite interp_state_ret.
  reflexivity.
Qed.

(* ===================================================================== *)
(** * Theorems on the constructor and the direct calls *)
(* ===================================================================== *)

Section FetcherServiceCallsFacts.

Variable EHttpStatus EErrorCodes EApiErrors : enum_object string.
Variable AuthCredential : Type.
Variable new_AuthCredential : list string -> completion AuthCredential.
Variable toHeader : AuthCredential -> list (string * json).
Variable EResourceType_value : EResourceType -> string.

Local Abbreviation handleHttpError := (FetcherService.handleHttpError EHttpStatus).
Local Abbreviation handleApiError := (FetcherService.handleApiError EErrorCodes EApiErrors).
Local Abbreviation postFollow :=
  (FetcherServiceCalls.postFollow EHttpStatus EErrorCodes EApiErrors toHeader).
Local Abbreviation unFollow :=
  (FetcherServiceCalls.unFollow EHttpStatus EErrorCodes EApiErrors toHeader).
Local Abbreviation getMessages :=
  (FetcherServiceCalls.getMessages EHttpStatus EErrorCodes EApiErrors toHeader).
Local Abbreviation sendMessage :=
  (FetcherServiceCalls.sendMessage EHttpStatus EErrorCodes EApiErrors toHeader).
Local Abbreviation replyTweet :=
  (FetcherServiceCalls.replyTweet EHttpStatus EErrorCodes EApiErrors toHeader
     EResourceType_value).

(** X1. [getAuthCredential] builds the credential from the pieces of the
    API key between its semicolons: joined by semicolons they give the key
    back, none of them holds a semicolon, there is one more of them than
    there are semicolons in the key, and they are the only such pieces. *)
Theorem getAuthCredential_cookies (apiKey : string) :
  exists cookies,
    FetcherServiceCalls.getAuthCredential new_AuthCredential apiKey
    = new_AuthCredential cookies
    /\ String.concat ";" cookies = apiKey
    /\ Forall (fun cookie => occurrences ";" cookie = 0) cookies
    /\ length cookies = S (occurrences ";" apiKey)
    /\ (forall pieces,
          pieces <> [] ->
          Forall (fun piece => occurrences ";" piece = 0) pieces ->
          String.concat ";" pieces = apiKey ->
          pieces = cookies).
Proof.
  exists (split ";" apiKey). split; [reflexivity|].
  split; [apply (concat_split ";")|].
  split; [apply split_pieces|].
  split; [apply length_split|].
  intros pieces Hne Hpieces <-. symmetry. apply (split_concat ";"); assumption.
Qed.

(** X2. The agent chosen at construction, the proxy agent exactly when a
    proxy URL is given, is the one every call of [request] hands to axios;
    none of the five direct calls hands axios an agent. The constructor
    throws exactly when the credential cannot be built. *)
Theorem proxy_agent_routing (apiKey : string) (proxyUrl : option string) :
  (forall this,
      FetcherServiceCalls.constructor new_AuthCredential apiKey proxyUrl = ret this ->
      forall config,
        FetcherServiceCalls.httpsAgent
          (FetcherServiceCalls.ofRequest
             (FetcherService.axiosRequest (fun c => JObj (toHeader c)) this config))
        = Some (match proxyUrl with
                | Some u => FetcherService.HttpsProxyAgent u
                | None => FetcherService.HttpsAgent
                end))
  /\ (forall this id myId otherId text uuid tweetId,
        FetcherServiceCalls.httpsAgent (FetcherServiceCalls.postFollowRequest toHeader this id)
        = None
        /\ FetcherServiceCalls.httpsAgent (FetcherServiceCalls.unFollowRequest toHeader this id)
           = None
        /\ FetcherServiceCalls.httpsAgent
             (FetcherServiceCalls.getMessagesRequest toHeader this myId otherId) = None
        /\ FetcherServiceCalls.httpsAgent
             (FetcherServiceCalls.sendMessageRequest toHeader this myId otherId text uuid)
           = None
        /\ FetcherServiceCalls.httpsAgent
             (FetcherServiceCalls.replyTweetRequest toHeader EResourceType_value
                this tweetId text) = None)
  /\ (forall e,
        FetcherServiceCalls.constructor new_AuthCredential apiKey proxyUrl = throw e
        <-> new_AuthCredential (split ";" apiKey) = throw e).
Proof.
  unfold FetcherServiceCalls.constructor, FetcherServiceCalls.getAuthCredential.
  split; [|split].
  - intros this Hthis config.
    destruct (new_AuthCredential (split ";" apiKey)) as [e | cred];
      cbv [bind ret] in Hthis; [discriminate|].
    injection Hthis as <-. destruct proxyUrl; reflexivity.
  - intros. repeat split; reflexivity.
  - intros e. destruct (new_AuthCredential (split ";" apiKey)) as [e' | cred];
      cbv [bind ret throw]; split; intros H;
      first [discriminate H | injection H as ->; reflexivity].
Qed.



(** X4. [postFollow] and [unFollow] send the headers of the credential
    with [Content-Type] set to the form encoding: every other header is
    the credential's, and a header is added only when the credential has no
    [Content-Type] of its own. The three other direct calls send the
    credential's headers as they are. *)
Theorem follow_headers (this : FetcherService.FetcherService AuthCredential) :
  exists fields,
    (forall id,
        FetcherServiceCalls.headers (FetcherServiceCalls.postFollowRequest toHeader this id)
        = JObj fields
        /\ FetcherServiceCalls.headers (FetcherServiceCalls.unFollowRequest toHeader this id)
           = JObj fields)
    /\ field "Content-Type" fields = Some (JStr "application/x-www-form-urlencoded")
    /\ (forall name, name <> "Content-Type" ->
          field name fields = field name (toHeader (FetcherService.cred this)))
    /\ List.map fst fields
       = (if existsb (String.eqb "Content-Type")
               (List.map fst (toHeader (FetcherService.cred this)))
          then List.map fst (toHeader (FetcherService.cred this))
          else List.map fst (toHeader (FetcherService.cred this)) ++ ["Content-Type"])
    /\ (forall myId otherId text uuid tweetId,
          FetcherServiceCalls.headers
            (FetcherServiceCalls.getMessagesRequest toHeader this myId otherId)
          = JObj (toHeader (FetcherService.cred this))
          /\ FetcherServiceCalls.headers
               (FetcherServiceCalls.sendMessageRequest toHeader this myId otherId text uuid)
             = JObj (toHeader (FetcherService.cred this))
          /\ FetcherServiceCalls.headers
               (FetcherServiceCalls.replyTweetRequest toHeader EResourceType_value
                  this tweetId text)
             = JObj (toHeader (FetcherService.cred this))).
Proof.
  eexists. split; [intros id; split; reflexivity|].
  split; [apply field_setField_same|].
  split; [intros name Hname; apply field_setField_other, Hname|].
  split; [apply keys_setField|].
  intros. repeat split; reflexivity.
Qed.

(** X5. [getMessages] and [sendMessage] name the conversation in the same
    way, the other account first: the path of the one holds what the
    [conversation_id] of the other is. For account ids without a hyphen
    the name tells the two accounts apart, so the two orders of a pair of
    distinct accounts name two conversations. *)
Theorem conversation_addressing (this : FetcherService.FetcherService AuthCredential)
        (myId otherId text uuid : string) :
  FetcherServiceCalls.url (FetcherServiceCalls.getMessagesRequest toHeader this myId otherId)
  = ("https://twitter.com/i/api/1.1/dm/conversation/"
     ++ FetcherServiceCalls.conversation myId otherId
     ++ ".json" ++ FetcherServiceCalls.getMessagesQuery)%string
  /\ getProp (FetcherServiceCalls.data
                (FetcherServiceCalls.sendMessageRequest toHeader this myId otherId text uuid))
             "conversation_id"
     = ret (Some (JStr (FetcherServiceCalls.conversation myId otherId)))
  /\ (forall myId' otherId',
        occurrences "-" otherId = 0 ->
        occurrences "-" otherId' = 0 ->
        FetcherServiceCalls.conversation myId otherId
        = FetcherServiceCalls.conversation myId' otherId' ->
        myId = myId' /\ otherId = otherId')
  /\ (occurrences "-" myId = 0 ->
      occurrences "-" otherId = 0 ->
      FetcherServiceCalls.conversation myId otherId
      = FetcherServiceCalls.conversation otherId myId ->
      myId = otherId).
Proof.
  split; [reflexivity|]. split; [reflexivity|]. split.
  - intros myId' otherId'. apply conversation_inj.
  - intros Hmy Hother Heq.
    destruct (conversation_inj _ _ _ _ Hother Hmy Heq) as [H _]. exact H.
Qed.

Variable W : Type.
Variable h : FetcherServiceCalls.axiosE ~> Monads.stateT W (itree void1).

(** X6. Each of the five direct calls makes its one call to axios and
    passes what axios settles to through the HTTP middleware and then the
    API middleware, as [request] does: a rejection of axios is the
    rejection of the call, a response comes back unchanged when both
    middlewares let it through. *)
Theorem direct_calls_settle (this : FetcherService.FetcherService AuthCredential)
        (id myId otherId text uuid tweetId : string) (w w' : W)
        (c : completion AxiosResponse) :
  (h _ (FetcherServiceCalls.Axios (FetcherServiceCalls.postFollowRequest toHeader this id)) w
   ≈ Ret (w', c) ->
   interp_state h (postFollow this id) w
   ≈ Ret (w', bind (bind c handleHttpError) handleApiError))
  /\ (h _ (FetcherServiceCalls.Axios (FetcherServiceCalls.unFollowRequest toHeader this id)) w
      ≈ Ret (w', c) ->
      interp_state h (unFollow this id) w
      ≈ Ret (w', bind (bind c handleHttpError) handleApiError))
  /\ (h _ (FetcherServiceCalls.Axios
             (FetcherServiceCalls.getMessagesRequest toHeader this myId otherId)) w
      ≈ Ret (w', c) ->
      interp_state h (getMessages this myId otherId) w
      ≈ Ret (w', bind (bind c handleHttpError) handleApiError))
  /\ (h _ (FetcherServiceCalls.Axios
             (FetcherServiceCalls.sendMessageRequest toHeader this myId otherId text uuid)) w
      ≈ Ret (w', c) ->
      interp_state h (sendMessage this myId otherId text uuid) w
      ≈ Ret (w', bind (bind c handleHttpError) handleApiError))
  /\ (h _ (FetcherServiceCalls.Axios
             (FetcherServiceCalls.replyTweetRequest toHeader EResourceType_value
                this tweetId text)) w
      ≈ Ret (w', c) ->
      interp_state h (replyTweet this tweetId text) w
      ≈ Ret (w', bind (bind c handleHttpError) handleApiError))
  /\ (forall e, bind (bind (throw e) handleHttpError) handleApiError = throw e)
  /\ (forall res, handleHttpError res = ret res -> handleApiError res = ret res ->
                  bind (bind (ret res) handleHttpError) handleApiError = ret res).
Proof.
  do 5 (split; [intros Hax; apply pipeline_run, Hax|]).
  split; [reflexivity|].
  intros res Hhttp Hapi. cbv [bind ret] in *. rewrite Hhttp. exact Hapi.
Qed.

End FetcherServiceCallsFacts.

(* ===================================================================== *)
(** * Further theorems on [fetch], [post] and the API middleware *)
(* ===================================================================== *)

Section FetcherServiceRunFacts.

Variable EHttpStatus EErrorCodes EApiErrors : enum_object string.
Variable AuthCredential : Type.
Variable toHeader : AuthCredential -> json.
Variable Args : Type.
Variable new_Request : EResourceType -> Args -> completion FetcherService.Request.

Local Abbreviation handleHttpError := (FetcherService.handleHttpError EHttpStatus).
Local Abbreviation handleApiError := (FetcherService.handleApiError EErrorCodes EApiErrors).
Local Abbreviation fetch :=
  (FetcherService.fetch EHttpStatus EErrorCodes EApiErrors toHeader new_Request).
Local Abbreviation post :=
  (FetcherService.post EHttpStatus EErrorCodes EApiErrors toHeader new_Request).

Variable W : Type.
Variable h : FetcherService.netE ~> Monads.stateT W (itree void1).

(** X7. When the request cannot be built, [fetch] and [post] are rejected
    with the error of the constructor and axios is not called: the world
    is left as it was. *)
Theorem no_request_no_call (this : FetcherService.FetcherService AuthCredential)
        (resourceType : EResourceType) (args : Args) (w : W) (e : exn) :
  new_Request resourceType args = throw e ->
  interp_state h (fetch this resourceType args) w ≈ Ret (w, throw e)
  /\ interp_state h (post this resourceType args) w ≈ Ret (w, throw e).
Proof.
  intros Hnew. unfold FetcherService.fetch, FetcherService.post.
  rewrite !await_now, Hnew. split; reflexivity.
Qed.

(** X8. When the request is built, [fetch] and [post] make the one call to
    axios and settle as the two middlewares settle its answer, followed by
    [extractData] at the resource type of the call for [fetch] and by the
    value [true] for [post]. A rejection of axios or of a middleware is
    the rejection of the call, and so is the [TypeError] of
    [extractData]. *)
Theorem fetch_post_settle (this : FetcherService.FetcherService AuthCredential)
        (resourceType : EResourceType) (args : Args) (request_ : FetcherService.Request)
        (w w' : W) (c : completion AxiosResponse) :
  new_Request resourceType args = ret request_ ->
  h _ (FetcherService.Axios (FetcherService.axiosRequest toHeader this request_)) w
  ≈ Ret (w', c) ->
  interp_state h (fetch this resourceType args) w
  ≈ Ret (w', let! res := bind (bind c handleHttpError) handleApiError in
             FetcherService.extractData (tree (data res)) resourceType)
  /\ interp_state h (post this resourceType args) w
     ≈ Ret (w', let! res := bind (bind c handleHttpError) handleApiError in ret true).
Proof.
  intros Hnew Hax.
  pose proof (request_run EHttpStatus EErrorCodes EApiErrors AuthCredential toHeader
                W h this request_ w w' c Hax) as Hrun.
  unfold FetcherService.fetch, FetcherService.post.
  rewrite !await_now, Hnew. cbv [ret]. split.
  - unfold await, then_. rewrite !interp_state_bind, Hrun, !bind_ret_l. cbn.
    rewrite interp_state_ret, bind_ret_l. cbn.
    destruct (bind (bind c handleHttpError) handleApiError) as [e | res]; cbn;
      rewrite interp_state_ret; reflexivity.
  - unfold await. rewrite interp_state_bind, Hrun, bind_ret_l. cbn.
    destruct (bind (bind c handleHttpError) handleApiError) as [e | res]; cbn;
      rewrite interp_state_ret; reflexivity.
Qed.

(** X9. An error code that the tables have no message for still makes the
    API middleware throw, with the empty message: either [EErrorCodes] has
    no key for the code (and [EApiErrors] no member called [undefined]),
    or [EApiErrors] has no entry under the key. *)
Theorem handleApiError_unknown_code (res : AxiosResponse) (first : IError)
        (rest : list IError) :
  errors (data res) = Some (first :: rest) ->
  (findKeyByValue EErrorCodes (template_of_number (code first)) = None ->
   enum_get "undefined" EApiErrors = None ->
   handleApiError res = throw (Error ""))
  /\ (forall key,
        findKeyByValue EErrorCodes (template_of_number (code first)) = Some key ->
        enum_get key EApiErrors = None ->
        handleApiError res = throw (Error "")).
Proof.
  intros Herrors.
  unfold FetcherService.handleApiError, FetcherService.apiErrorMessage.
  rewrite Herrors. split.
  - intros -> Hundefined. cbn [property_key]. rewrite Hundefined. reflexivity.
  - intros key -> Hkey. cbn [property_key]. rewrite Hkey. reflexivity.
Qed.

End FetcherServiceRunFacts.

(* ===================================================================== *)
(** * Further theorems on the tweet service *)
(* ===================================================================== *)

Section TweetServiceFailureFacts.

Variable Tweet Response : Type.
Variable tweetDetailsUrl : string -> string.
Variable extractTweet : json -> string -> completion TweetService.Extracted.
Variable toTweet : jsval -> completion Tweet.

Local Abbreviation getTweetById :=
  (@TweetService.getTweetById Tweet Response tweetDetailsUrl extractTweet toTweet).

Variable W : Type.
Variable h : TweetService.serviceE Tweet Response ~> Monads.stateT W (itree void1).

(** X10. [getTweetById] is rejected with the error of the first operation
    that fails, and no later operation runs: a failed cache read is not
    followed by a fetch, and nothing is cached when the fetch, the reading
    of the body or the extraction fails. A failure of the caching rejects
    the call although the tweet was fetched and extracted. *)
Theorem getTweetById_failures (tweetId : string) (w : W) (e : exn) :
  (forall w1,
      h _ (TweetService.ReadData tweetId) w ≈ Ret (w1, throw e) ->
      interp_state h (getTweetById tweetId) w ≈ Ret (w1, throw e))
  /\ (forall w1 w2,
        h _ (TweetService.ReadData tweetId) w ≈ Ret (w1, ret None) ->
        h _ (TweetService.FetchData (tweetDetailsUrl tweetId) undefined undefined false) w1
        ≈ Ret (w2, throw e) ->
        interp_state h (getTweetById tweetId) w ≈ Ret (w2, throw e))
  /\ (forall w1 w2 w3 res,
        h _ (TweetService.ReadData tweetId) w ≈ Ret (w1, ret None) ->
        h _ (TweetService.FetchData (tweetDetailsUrl tweetId) undefined undefined false) w1
        ≈ Ret (w2, ret res) ->
        h _ (TweetService.Json res) w2 ≈ Ret (w3, throw e) ->
        interp_state h (getTweetById tweetId) w ≈ Ret (w3, throw e))
  /\ (forall w1 w2 w3 res body,
        h _ (TweetService.ReadData tweetId) w ≈ Ret (w1, ret None) ->
        h _ (TweetService.FetchData (tweetDetailsUrl tweetId) undefined undefined false) w1
        ≈ Ret (w2, ret res) ->
        h _ (TweetService.Json res) w2 ≈ Ret (w3, ret body) ->
        extractTweet body tweetId = throw e ->
        interp_state h (getTweetById tweetId) w ≈ Ret (w3, throw e))
  /\ (forall w1 w2 w3 w4 res body data,
        h _ (TweetService.ReadData tweetId) w ≈ Ret (w1, ret None) ->
        h _ (TweetService.FetchData (tweetDetailsUrl tweetId) undefined undefined false) w1
        ≈ Ret (w2, ret res) ->
        h _ (TweetService.Json res) w2 ≈ Ret (w3, ret body) ->
        extractTweet body tweetId = ret data ->
        h _ (TweetService.CacheData data) w3 ≈ Ret (w4, throw e) ->
        interp_state h (getTweetById tweetId) w ≈ Ret (w4, throw e)).
Proof.
  unfold TweetService.getTweetById. split; [|split; [|split; [|split]]].
  - intros w1 Hread. rewrite (await_run h _ _ _ _ _ Hread). reflexivity.
  - intros w1 w2 Hread Hfetch.
    rewrite (await_run h _ _ _ _ _ Hread). cbn.
    rewrite (await_run h _ _ _ _ _ Hfetch). reflexivity.
  - intros w1 w2 w3 res Hread Hfetch Hjson.
    rewrite (await_run h _ _ _ _ _ Hread). cbn.
    rewrite (await_run h _ _ _ _ _ Hfetch). cbn.
    rewrite (await_run h _ _ _ _ _ Hjson). reflexivity.
  - intros w1 w2 w3 res body Hread Hfetch Hjson Hextract.
    rewrite (await_run h _ _ _ _ _ Hread). cbn.
    rewrite (await_run h _ _ _ _ _ Hfetch). cbn.
    rewrite (await_run h _ _ _ _ _ Hjson). cbn.
    rewrite await_now, Hextract. reflexivity.
  - intros w1 w2 w3 w4 res body data Hread Hfetch Hjson Hextract Hcache.
    rewrite (await_run h _ _ _ _ _ Hread). cbn.
    rewrite (await_run h _ _ _ _ _ Hfetch). cbn.
    rewrite (await_run h _ _ _ _ _ Hjson). cbn.
    rewrite await_now, Hextract. cbv [ret].
    rewrite (await_run h _ _ _ _ _ Hcache). reflexivity.
Qed.

End TweetServiceFailureFacts.

Section TweetServiceListsFacts.

Variable Tweet User Response TweetFilter : Type.
Variable tweetsUrl : TweetFilter -> string -> string.
Variable tweetRepliesUrl : string -> string -> string.
Variable tweetLikesUrl : string -> Z -> string -> string.
Variable tweetRetweetUrl : string -> Z -> string -> string.
Variable extractTweets : json -> completion TweetService.Extracted.
Variable extractTweetLikers : json -> completion TweetService.Extracted.
Variable extractTweetRetweeters : json -> completion TweetService.Extracted.
Variable extractTweetReplies : json -> string -> completion TweetService.Extracted.
Variable toTweet : jsval -> completion Tweet.
Variable toUser : jsval -> completion User.

Local Abbreviation getTweets :=
  (@TweetServiceLists.getTweets Tweet Response TweetFilter tweetsUrl extractTweets toTweet).
Local Abbreviation getTweetLikers :=
  (@TweetServiceLists.getTweetLikers User Response tweetLikesUrl extractTweetLikers toUser).
Local Abbreviation getTweetRetweeters :=
  (@TweetServiceLists.getTweetRetweeters User Response tweetRetweetUrl
     extractTweetRetweeters toUser).
Local Abbreviation getTweetReplies :=
  (@TweetServiceLists.getTweetReplies Tweet Response tweetRepliesUrl
     extractTweetReplies toTweet).

Variable W : Type.
Variable h : TweetServiceLists.listE Response ~> Monads.stateT W (itree void1).

(** The shape the four listings share, run up to the deserialization. *)
Lemma listing_run {T : Type} (url : string)
      (extract : json -> completion TweetService.Extracted)
      (deserialize : jsval -> completion T)
      (w w1 w2 w3 : W) (res : Response) (body : json) (data : TweetService.Extracted) :
  h _ (TweetServiceLists.FetchData url) w ≈ Ret (w1, ret res) ->
  h _ (TweetServiceLists.Json res) w1 ≈ Ret (w2, ret body) ->
  extract body = ret data ->
  h _ (TweetServiceLists.CacheData data) w2 ≈ Ret (w3, ret tt) ->
  interp_state h
    (await (ITree.trigger (TweetServiceLists.FetchData url)) (fun res =>
     await (ITree.trigger (TweetServiceLists.Json res)) (fun res =>
     await (Ret (extract res)) (fun data =>
     await (ITree.trigger (TweetServiceLists.CacheData data)) (fun _ =>
     await (Ret (mapM (fun item => deserialize (Some item)) (TweetService.required data)))
       (fun items =>
     Ret (ret {| Service.list := items;
                 Service.next := TweetService.cursor data |}))))))) w
  ≈ Ret (w3, let! items := mapM (fun item => deserialize (Some item))
                                (TweetService.required data) in
             ret {| Service.list := items; Service.next := TweetService.cursor data |}).
Proof.
  intros Hfetch Hjson Hextract Hcache.
  rewrite (await_run h _ _ _ _ _ Hfetch). cbn.
  rewrite (await_run h _ _ _ _ _ Hjson). cbn.
  rewrite await_now, Hextract. cbv [ret].
  rewrite (await_run h _ _ _ _ _ Hcache). cbn.
  rewrite await_now.
  destruct (mapM (fun item => deserialize (Some item)) (TweetService.required data));
    cbn; [|rewrite interp_state_ret]; reflexivity.
Qed.

Lemma listing_fulfils {T : Type} (url : string)
      (extract : json -> completion TweetService.Extracted)
      (deserialize : jsval -> completion T) (w : W) :
  listingFulfils h
    (await (ITree.trigger (TweetServiceLists.FetchData url)) (fun res =>
     await (ITree.trigger (TweetServiceLists.Json res)) (fun res =>
     await (Ret (extract res)) (fun data =>
     await (ITree.trigger (TweetServiceLists.CacheData data)) (fun _ =>
     await (Ret (mapM (fun item => deserialize (Some item)) (TweetService.required data)))
       (fun items =>
     Ret (ret {| Service.list := items;
                 Service.next := TweetService.cursor data |})))))))
    url extract deserialize w.
Proof.
  intros w1 w2 w3 res body data items Hfetch Hjson Hextract Hcache Hitems.
  rewrite (listing_run url extract deserialize w w1 w2 w3 res body data
             Hfetch Hjson Hextract Hcache).
  apply (mapM_ret (fun item => deserialize (Some item))) in Hitems.
  rewrite Hitems. reflexivity.
Qed.

Lemma listing_fails_cached {T : Type} (url : string)
      (extract : json -> completion TweetService.Extracted)
      (deserialize : jsval -> completion T) (w : W) :
  listingFailsCached h
    (await (ITree.trigger (TweetServiceLists.FetchData url)) (fun res =>
     await (ITree.trigger (TweetServiceLists.Json res)) (fun res =>
     await (Ret (extract res)) (fun data =>
     await (ITree.trigger (TweetServiceLists.CacheData data)) (fun _ =>
     await (Ret (mapM (fun item => deserialize (Some item)) (TweetService.required data)))
       (fun items =>
     Ret (ret {| Service.list := items;
                 Service.next := TweetService.cursor data |})))))))
    url extract deserialize w.
Proof.
  intros w1 w2 w3 res body data before raw after e
         Hfetch Hjson Hextract Hcache Hsplit Hbefore Hraw.
  rewrite (listing_run url extract deserialize w w1 w2 w3 res body data
             Hfetch Hjson Hextract Hcache).
  assert (Hthrow : mapM (fun item => deserialize (Some item)) (TweetService.required data)
                   = throw e).
  { apply mapM_throw. exists before, raw, after. repeat split; assumption. }
  rewrite Hthrow. reflexivity.
Qed.

Lemma listing_fails_uncached {T : Type} (url : string)
      (extract : json -> completion TweetService.Extracted)
      (deserialize : jsval -> completion T) (w : W) :
  listingFailsUncached h
    (await (ITree.trigger (TweetServiceLists.FetchData url)) (fun res =>
     await (ITree.trigger (TweetServiceLists.Json res)) (fun res =>
     await (Ret (extract res)) (fun data =>
     await (ITree.trigger (TweetServiceLists.CacheData data)) (fun _ =>
     await (Ret (mapM (fun item => deserialize (Some item)) (TweetService.required data)))
       (fun items =>
     Ret (ret {| Service.list := items;
                 Service.next := TweetService.cursor data |})))))))
    url extract w.
Proof.
  intros e. split; [|split; [|split]].
  - intros w1 Hfetch. rewrite (await_run h _ _ _ _ _ Hfetch). reflexivity.
  - intros w1 w2 res Hfetch Hjson.
    rewrite (await_run h _ _ _ _ _ Hfetch). cbn.
    rewrite (await_run h _ _ _ _ _ Hjson). reflexivity.
  - intros w1 w2 res body Hfetch Hjson Hextract.
    rewrite (await_run h _ _ _ _ _ Hfetch). cbn.
    rewrite (await_run h _ _ _ _ _ Hjson). cbn.
    rewrite await_now, Hextract. reflexivity.
  - intros w1 w2 w3 res body data Hfetch Hjson Hextract Hcache.
    rewrite (await_run h _ _ _ _ _ Hfetch). cbn.
    rewrite (await_run h _ _ _ _ _ Hjson). cbn.
    rewrite await_now, Hextract. cbv [ret].
    rewrite (await_run h _ _ _ _ _ Hcache). reflexivity.
Qed.

(** X11. Each of the four listings, when its page is fetched, read,
    extracted and cached and every raw entity deserializes, is fulfilled
    with one deserialized entity for each raw one, in their order, and
    with the cursor of the extraction; the world is the one the caching
    left. *)
Theorem listings_fulfil (filter : TweetFilter) (tweetId : string) (count : Z)
        (cursor : string) (w : W) :
  listingFulfils h (getTweets filter cursor)
    (tweetsUrl filter cursor) extractTweets toTweet w
  /\ listingFulfils h (getTweetLikers tweetId count cursor)
       (tweetLikesUrl tweetId count cursor) extractTweetLikers toUser w
  /\ listingFulfils h (getTweetRetweeters tweetId count cursor)
       (tweetRetweetUrl tweetId count cursor) extractTweetRetweeters toUser w
  /\ listingFulfils h (getTweetReplies tweetId cursor)
       (tweetRepliesUrl tweetId cursor)
       (fun res => extractTweetReplies res tweetId) toTweet w.
Proof.
  split; [|split; [|split]]; apply listing_fulfils.
Qed.

(** X12. Each of the four listings caches the extraction before it
    deserializes: when a raw entity fails to deserialize, the listing is
    rejected with the error of the first one that fails, and the
    extraction has been cached all the same. *)
Theorem listings_cache_before_deserializing (filter : TweetFilter) (tweetId : string)
        (count : Z) (cursor : string) (w : W) :
  listingFailsCached h (getTweets filter cursor)
    (tweetsUrl filter cursor) extractTweets toTweet w
  /\ listingFailsCached h (getTweetLikers tweetId count cursor)
       (tweetLikesUrl tweetId count cursor) extractTweetLikers toUser w
  /\ listingFailsCached h (getTweetRetweeters tweetId count cursor)
       (tweetRetweetUrl tweetId count cursor) extractTweetRetweeters toUser w
  /\ listingFailsCached h (getTweetReplies tweetId cursor)
       (tweetRepliesUrl tweetId cursor)
       (fun res => extractTweetReplies res tweetId) toTweet w.
Proof.
  split; [|split; [|split]]; apply listing_fails_cached.
Qed.

(** X13. Each of the four listings is rejected with the error of the
    fetch, of the reading of the body, of the extraction or of the caching,
    whichever fails first, and no later operation runs: nothing is cached
    when the page could not be fetched, read or extracted. *)
Theorem listings_fail_uncached (filter : TweetFilter) (tweetId : string)
        (count : Z) (cursor : string) (w : W) :
  listingFailsUncached h (getTweets filter cursor)
    (tweetsUrl filter cursor) extractTweets w
  /\ listingFailsUncached h (getTweetLikers tweetId count cursor)
       (tweetLikesUrl tweetId count cursor) extractTweetLikers w
  /\ listingFailsUncached h (getTweetRetweeters tweetId count cursor)
       (tweetRetweetUrl tweetId count cursor) extractTweetRetweeters w
  /\ listingFailsUncached h (getTweetReplies tweetId cursor)
       (tweetRepliesUrl tweetId cursor)
       (fun res => extractTweetReplies res tweetId) w.
Proof.
  split; [|split; [|split]]; apply listing_fails_uncached.
Qed.

End TweetServiceListsFacts.

(* ===================================================================== *)
(** * The further theorems at sample inputs *)
(* ===================================================================== *)

(** X1 at a key of two cookies. *)
Lemma getAuthCredential_cookies_witness :
  FetcherServiceCalls.getAuthCredential sampleNewAuthCredential "auth_token=a;ct0=b"
  = ret ["auth_token=a"; "ct0=b"].
Proof.
  destruct (getAuthCredential_cookies (list string) sampleNewAuthCredential
              "auth_token=a;ct0=b") as [cookies [Hget [_ [_ [_ Hunique]]]]].
  rewrite Hget.
  rewrite <- (Hunique ["auth_token=a"; "ct0=b"]).
  - reflexivity.
  - discriminate.
  - repeat constructor.
  - reflexivity.
Defined.

(** X2 at a service built with a proxy. *)
Lemma proxy_agent_routing_witness :
  FetcherServiceCalls.httpsAgent
    (FetcherServiceCalls.ofRequest
       (FetcherService.axiosRequest (fun c => JObj (sampleHeaderEntries c))
          (FetcherService.Build_FetcherService ["auth_token=a"; "ct0=b"]
             (FetcherService.HttpsProxyAgent "http://127.0.0.1:8080"))
          sampleRequest))
  = Some (FetcherService.HttpsProxyAgent "http://127.0.0.1:8080").
Proof.
  destruct (proxy_agent_routing (list string) sampleNewAuthCredential sampleHeaderEntries
              (fun _ => "/i/api/graphql/CreateTweet")
              "auth_token=a;ct0=b" (Some "http://127.0.0.1:8080")) as [Hrequest _].
  apply Hrequest. reflexivity.
Defined.


Example follow_form_body_escaped :
  toString (FetcherServiceCalls.postFollowParams "1&skip_status=0 x")
  = "include_profile_interstitial_type=1&include_blocking=1&include_blocked_by=1&include_followed_by=1&include_want_retweets=1&include_mute_edge=1&include_can_dm=1&include_can_media_tag=1&include_ext_has_nft_avatar=1&include_ext_is_blue_verified=1&include_ext_verified_type=1&include_ext_profile_image_shape=1&user_id=1%26skip_status%3D0+x".
Proof. reflexivity. Qed.

(** X4 at the sample credential, whose header has no content type: the
    cookie is kept and the content type added. *)
Lemma follow_headers_witness :
  exists fields,
    FetcherServiceCalls.headers
      (FetcherServiceCalls.unFollowRequest sampleHeaderEntries sampleService "12345")
    = JObj fields
    /\ field "Content-Type" fields = Some (JStr "application/x-www-form-urlencoded")
    /\ field "cookie" fields = Some (JStr "auth_token=a;ct0=b")
    /\ List.map fst fields = ["cookie"; "Content-Type"].
Proof.
  destruct (follow_headers (list string) sampleHeaderEntries
              (fun _ => "/i/api/graphql/CreateTweet") sampleService)
    as [fields [Hheaders [Htype [Hother [Hkeys _]]]]].
  exists fields. split; [apply (Hheaders "12345")|].
  split; [exact Htype|]. split.
  - rewrite Hother by discriminate. reflexivity.
  - rewrite Hkeys. reflexivity.
Defined.

(** X5 at two numeric ids. *)
Lemma conversation_addressing_witness :
  FetcherServiceCalls.conversation "1" "2" <> FetcherServiceCalls.conversation "2" "1".
Proof.
  destruct (conversation_addressing (list string) sampleHeaderEntries sampleService
              "1" "2" "hello" "uuid") as [_ [_ [_ Hswap]]].
  intros Heq. specialize (Hswap eq_refl eq_refl Heq). discriminate Hswap.
Defined.

(** X6 at a response with status 404, a key of the sample table. *)
Lemma direct_calls_settle_witness :
  interp_state (answeringDirect (ret (responseOf 404 None)))
    (FetcherServiceCalls.postFollow sampleHttpStatus sampleErrorCodes sampleApiErrors
       sampleHeaderEntries sampleService "12345") 0
  ≈ Ret (1, throw (Error "NOT_FOUND")).
Proof.
  destruct (direct_calls_settle sampleHttpStatus sampleErrorCodes sampleApiErrors
              (list string) sampleHeaderEntries (fun _ => "/i/api/graphql/CreateTweet")
              nat (answeringDirect (ret (responseOf 404 None)))
              sampleService "12345" "1" "2" "hello" "uuid" "99" 0 1
              (ret (responseOf 404 None))) as [Hfollow _].
  rewrite Hfollow; reflexivity.
Defined.

(** X7 at a constructor that rejects its arguments: no call is counted. *)
Lemma no_request_no_call_witness :
  interp_state (answering (ret (responseOf 200 None)))
    (FetcherService.post sampleHttpStatus sampleErrorCodes sampleApiErrors
       sampleHeader rejectingNewRequest sampleService CREATE_TWEET tt) 0
  ≈ Ret (0, throw (Error "Invalid arguments")).
Proof.
  destruct (no_request_no_call sampleHttpStatus sampleErrorCodes sampleApiErrors
              (list string) sampleHeader unit rejectingNewRequest nat
              (answering (ret (responseOf 200 None)))
              sampleService CREATE_TWEET tt 0 (Error "Invalid arguments") eq_refl)
    as [_ Hpost].
  exact Hpost.
Defined.

(** X8 at a page with a timeline node without its wrapper: the exchange
    succeeds and [fetch] is rejected with the [TypeError]. *)
Lemma fetch_post_settle_witness :
  interp_state
    (answering (ret {| status := 200;
                       data := {| errors := None; tree := bareTimelinePage |} |}))
    (FetcherService.fetch sampleHttpStatus sampleErrorCodes sampleApiErrors
       sampleHeader sampleNewRequest sampleService TWEET_SEARCH tt) 0
  ≈ Ret (1, throw TypeError).
Proof.
  destruct (fetch_post_settle sampleHttpStatus sampleErrorCodes sampleApiErrors
              (list string) sampleHeader unit sampleNewRequest nat
              (answering (ret {| status := 200;
                                 data := {| errors := None;
                                            tree := bareTimelinePage |} |}))
              sampleService TWEET_SEARCH tt sampleRequest 0 1
              (ret {| status := 200;
                      data := {| errors := None; tree := bareTimelinePage |} |})
              eq_refl) as [Hfetch _].
  - reflexivity.
  - rewrite Hfetch. reflexivity.
Defined.

(** X9 at a code the sample tables do not list. *)
Lemma handleApiError_unknown_code_witness :
  FetcherService.handleApiError sampleErrorCodes sampleApiErrors
    (responseOf 200 (Some [{| code := 7 |}]))
  = throw (Error "").
Proof.
  destruct (handleApiError_unknown_code sampleErrorCodes sampleApiErrors
              (responseOf 200 (Some [{| code := 7 |}])) {| code := 7 |} [] eq_refl)
    as [Hunknown _].
  apply Hunknown; reflexivity.
Defined.

(** X10 against an environment whose fetch fails: the cache is read, the
    fetch attempted, and nothing more. *)
Lemma getTweetById_failures_witness :
  interp_state (loggingFailing "fetchData")
    (TweetService.getTweetById sampleTweetDetailsUrl sampleExtractTweet sampleToTweet "1") []
  ≈ Ret (["readData"; "fetchData"], throw (Error "fetchData")).
Proof.
  destruct (getTweetById_failures string json sampleTweetDetailsUrl sampleExtractTweet
              sampleToTweet _ (loggingFailing "fetchData") "1" [] (Error "fetchData"))
    as [_ [Hfetch _]].
  apply (Hfetch ["readData"]); reflexivity.
Defined.

(** X11 against the logging environment: the one tweet of the page. *)
Lemma listings_fulfil_witness :
  interp_state (loggingLists "")
    (TweetServiceLists.getTweets sampleTweetsUrl sampleExtractTweets sampleToTweet
       "rocq" "") []
  ≈ Ret (["fetchData"; "json"; "cacheData"],
         ret {| Service.list := ["1"]; Service.next := "b0" |}).
Proof.
  destruct (listings_fulfil string string json string
              sampleTweetsUrl (fun id cursor => sampleTweetsUrl id cursor)
              (fun id count cursor => sampleTweetsUrl id cursor)
              (fun id count cursor => sampleTweetsUrl id cursor)
              sampleExtractTweets sampleExtractTweets sampleExtractTweets
              (fun res id => sampleExtractTweets res) sampleToTweet sampleToTweet
              _ (loggingLists "") "rocq" "1" 20%Z "" []) as [Htweets _].
  apply (Htweets ["fetchData"] ["fetchData"; "json"] ["fetchData"; "json"; "cacheData"]
                 samplePage samplePage
                 {| TweetService.required := findByFilter samplePage "__typename" "Tweet";
                    TweetService.cursor := "b0" |});
    try reflexivity.
  repeat constructor.
Defined.

(** X12 with an extractor whose raw entities have no [rest_id]: the
    listing is rejected, and the caching is in the log. *)
Lemma listings_cache_before_deserializing_witness :
  interp_state (loggingLists "")
    (TweetServiceLists.getTweets sampleTweetsUrl sampleExtractEntries sampleToTweet
       "rocq" "") []
  ≈ Ret (["fetchData"; "json"; "cacheData"], throw TypeError).
Proof.
  destruct (listings_cache_before_deserializing string string json string
              sampleTweetsUrl (fun id cursor => sampleTweetsUrl id cursor)
              (fun id count cursor => sampleTweetsUrl id cursor)
              (fun id count cursor => sampleTweetsUrl id cursor)
              sampleExtractEntries sampleExtractEntries sampleExtractEntries
              (fun res id => sampleExtractEntries res) sampleToTweet sampleToTweet
              _ (loggingLists "") "rocq" "1" 20%Z "" []) as [Htweets _].
  eapply (Htweets ["fetchData"] ["fetchData"; "json"] ["fetchData"; "json"; "cacheData"]
                  samplePage samplePage
                  {| TweetService.required :=
                       findByFilter samplePage "__typename" "TimelineTweet";
                     TweetService.cursor := "b0" |} []);
    try reflexivity.
  constructor.
Defined.

(** X13 against an environment in which reading the body fails. *)
Lemma listings_fail_uncached_witness :
  interp_state (loggingLists "json")
    (TweetServiceLists.getTweets sampleTweetsUrl sampleExtractTweets sampleToTweet
       "rocq" "") []
  ≈ Ret (["fetchData"; "json"], throw (Error "json")).
Proof.
  destruct (listings_fail_uncached string string json string
              sampleTweetsUrl (fun id cursor => sampleTweetsUrl id cursor)
              (fun id count cursor => sampleTweetsUrl id cursor)
              (fun id count cursor => sampleTweetsUrl id cursor)
              sampleExtractTweets sampleExtractTweets sampleExtractTweets
              (fun res id => sampleExtractTweets res) sampleToTweet sampleToTweet
              _ (loggingLists "json") "rocq" "1" 20%Z "" []) as [Htweets _].
  destruct (Htweets (Error "json")) as [_ [Hjson _]].
  apply (Hjson ["fetchData"] ["fetchData"; "json"] samplePage); reflexivity.
Defined.
